(** * Velvet service wrapper: a model of [lib/Velvet/VelvetImpl.py]

    The module wraps the [velveth] and [velvetg] binaries of the Velvet
    assembler.  What is modelled here is the Python class [Velvet]:
    its constructor, [process_params], [run_velveth], [run_velvetg] and
    [status], statement by statement, with Python's name resolution, its exceptions, and the
    calls that leave the process (printing, the subprocess, the two
    platform clients, the FASTA reader) recorded as a trace of events. *)

From Stdlib Require Import ZArith List String Ascii Bool Lia.
From Stdlib Require Import DecimalString SpecFloat.
Import ListNotations.
Local Open Scope string_scope.
Local Open Scope Z_scope.
Local Set Warnings "-register-all".

(** ** Python values *)

(** The values that reach the module: JSON data of the request, plus the
    module, class and function objects of the namespaces, known by name
    only. *)
Inductive value : Type :=
| VNone
| VBool (b : bool)
| VInt (z : Z)
| VFloat (f : spec_float)
| VStr (s : string)
| VList (l : list value)
| VDict (d : list (string * value))
| VObj (name : string).

(** A [dict] with string keys, in insertion order. *)
Definition dict : Type := list (string * value).

Fixpoint dict_get (k : string) (d : dict) : option value :=
  match d with
  | [] => None
  | (k', v) :: rest => if String.eqb k k' then Some v else dict_get k rest
  end.

(** [k in d] *)
Definition dict_has (k : string) (d : dict) : bool :=
  match dict_get k d with Some _ => true | None => false end.

(** [isinstance(v, int)]: [bool] is a subclass of [int]. *)
Definition isinstance_int (v : value) : bool :=
  match v with
  | VInt _ | VBool _ => true
  | _ => false
  end.

(** [isinstance(v, dict)] *)
Definition isinstance_dict (v : value) : bool :=
  match v with
  | VDict _ => true
  | _ => false
  end.

(** [type(v) == list] *)
Definition type_is_list (v : value) : bool :=
  match v with
  | VList _ => true
  | _ => false
  end.

(** ** Strings *)

Definition nl : string := String (ascii_of_nat 10) EmptyString.

(** [str(n)] for an [int]. *)
Definition str_int (z : Z) : string := NilZero.string_of_int (Z.to_int z).

(** [sub in s] *)
Definition contains (s sub : string) : Prop :=
  exists pre post, s = pre ++ sub ++ post.

(** ** Floats *)

(** Python's [float] is IEEE 754 binary64. *)
Definition prec : Z := 53.
Definition emax : Z := 1024.

(** [float(n)] for an [int], rounding to nearest even. *)
Definition float_of_int (n : Z) : spec_float := binary_normalize prec emax n 0 false.

Definition float_is_zero (f : spec_float) : bool :=
  match f with
  | S754_zero _ => true
  | _ => false
  end.

(** ** Exceptions, events and the monad of the methods *)

Inductive exn : Type :=
| ValueError (msg : string)
| KeyError (key : value)
| IndexError (msg : string)
| NameError (name : string)
| AttributeError (attr : string)
| TypeError (msg : string)
| ZeroDivisionError (msg : string)
| OverflowError (msg : string)
| ServerError (msg : string).

Inductive outcome (A : Type) : Type :=
| Return (a : A)
| Raise (e : exn).
Arguments Return {A} a.
Arguments Raise {A} e.

(** What a call does outside the interpreter, in the order it does it.
    [self.log] prints its message behind the wall-clock time, which is
    not part of the model. *)
Inductive event : Type :=
| EvLog (message : string)
| EvPrint (line : string)
| EvSpawn (argv : list string) (cwd : string)
| EvWait (retcode : Z)
| EvSaveAssembly (args : dict)
| EvParseFasta (path : string)
| EvCreateReport (args : dict).

(** A computation yields the events it caused and returns or raises. *)
Definition M (A : Type) : Type := list event * outcome A.

Definition ret {A} (a : A) : M A := ([], Return a).
Definition raise {A} (e : exn) : M A := ([], Raise e).
Definition emit (e : event) : M unit := ([e], Return tt).

Definition bind {A B} (m : M A) (f : A -> M B) : M B :=
  match m with
  | (t1, Return a) => let (t2, r) := f a in ((t1 ++ t2)%list, r)
  | (t1, Raise e) => (t1, Raise e)
  end.

Definition lift {A} (o : outcome A) : M A := ([], o).

Definition trace {A} (m : M A) : list event := fst m.
Definition result {A} (m : M A) : outcome A := snd m.

Declare Scope py_scope.
Delimit Scope py_scope with py.
Notation "x <- m ;; k" := (bind m (fun x => k))
  (at level 61, m at next level, right associativity) : py_scope.
Notation "m ;; k" := (bind m (fun _ => k))
  (at level 61, right associativity) : py_scope.
Local Open Scope py_scope.

(** [for x in xs: body x] *)
Fixpoint for_each {A} (xs : list A) (body : A -> M unit) : M unit :=
  match xs with
  | [] => ret tt
  | x :: rest => body x ;; for_each rest body
  end.

(** [for x in xs: acc = body acc x] *)
Fixpoint for_fold {A S} (xs : list A) (acc : S) (body : S -> A -> M S) : M S :=
  match xs with
  | [] => ret acc
  | x :: rest => acc' <- body acc x ;; for_fold rest acc' body
  end.

(** ** Operators *)

(** [d[k]] on a [dict] with a literal key. *)
Definition getitem (d : dict) (k : string) : M value :=
  match dict_get k d with
  | Some v => ret v
  | None => raise (KeyError (VStr k))
  end.

Definition nth_item {A} (l : list A) (i : Z) : option A :=
  let n := Z.of_nat (List.length l) in
  let j := if i <? 0 then i + n else i in
  if (0 <=? j) && (j <? n) then nth_error l (Z.to_nat j) else None.

(** An [int] used as an index; [True] and [False] index as 1 and 0. *)
Definition as_index (k : value) : option Z :=
  match k with
  | VInt i => Some i
  | VBool b => Some (if b then 1 else 0)
  | _ => None
  end.

(** [c[k]] in general. *)
Definition subscript (c k : value) : M value :=
  match c with
  | VDict d =>
      match k with
      | VStr s => getitem d s
      | VList _ | VDict _ => raise (TypeError "unhashable type")
      | _ => raise (KeyError k)
      end
  | VList l =>
      match as_index k with
      | Some i =>
          match nth_item l i with
          | Some v => ret v
          | None => raise (IndexError "list index out of range")
          end
      | None => raise (TypeError "list indices must be integers or slices")
      end
  | VStr s =>
      match as_index k with
      | Some i =>
          match nth_item (list_ascii_of_string s) i with
          | Some ch => ret (VStr (String ch EmptyString))
          | None => raise (IndexError "string index out of range")
          end
      | None => raise (TypeError "string indices must be integers")
      end
  | _ => raise (TypeError "object is not subscriptable")
  end.

(** [a + b] where [a] is a [str]. *)
Definition str_add (a : string) (b : value) : M string :=
  match b with
  | VStr s => ret (a ++ s)
  | _ => raise (TypeError "can only concatenate str to str")
  end.

(** [v == 'literal'] *)
Definition eq_str (v : value) (s : string) : bool :=
  match v with
  | VStr t => String.eqb t s
  | _ => false
  end.

(** The items a [for] loop draws from [v]. *)
Definition iterate (v : value) : M (list value) :=
  match v with
  | VList l => ret l
  | VDict d => ret (map (fun kv => VStr (fst kv)) d)
  | VStr s => ret (map (fun ch => VStr (String ch EmptyString)) (list_ascii_of_string s))
  | _ => raise (TypeError "object is not iterable")
  end.

(** The strings of a list, when all its items are [str]. *)
Fixpoint all_str (l : list value) : option (list string) :=
  match l with
  | [] => Some []
  | VStr s :: rest => option_map (cons s) (all_str rest)
  | _ :: _ => None
  end.

(** [sep.join(l)] *)
Definition str_join (sep : string) (l : list value) : M string :=
  match all_str l with
  | Some ss => ret (String.concat sep ss)
  | None => raise (TypeError "sequence item: expected str instance")
  end.

(** [float(n)] as Python converts an [int]. *)
Definition py_float (n : Z) : M spec_float :=
  match float_of_int n with
  | S754_infinity _ => raise (OverflowError "int too large to convert to float")
  | f => ret f
  end.

(** [a / b] for an [int] over a [float]. *)
Definition truediv (a : Z) (b : spec_float) : M spec_float :=
  fa <- py_float a ;;
  if float_is_zero b then raise (ZeroDivisionError "float division by zero")
  else ret (SFdiv prec emax fa b).

(** [sum(l)] *)
Definition sum (l : list Z) : Z := fold_left Z.add l 0.

(** [len(l)] *)
Definition len {A} (l : list A) : Z := Z.of_nat (List.length l).

Fixpoint ends_with_slash (s : string) : bool :=
  match s with
  | EmptyString => false
  | String c EmptyString => Ascii.eqb c "/"
  | String _ rest => ends_with_slash rest
  end.

(** [os.path.join(a, b)] of [posixpath]. *)
Definition path_join (a b : string) : string :=
  if String.prefix "/" b then b
  else if (String.eqb a "") || ends_with_slash a then a ++ b
  else a ++ "/" ++ b.

Definition os_path_join (a : string) (b : value) : M string :=
  match b with
  | VStr s => ret (path_join a s)
  | _ => raise (TypeError "expected str, bytes or os.PathLike object")
  end.

Definition when (b : bool) (m : M unit) : M unit := if b then m else ret tt.

(** ** Name spaces *)

(** The names bound at module level: the imports of the header and the
    class itself.  Of the standard library only [os], [pprint] and [time]
    are imported. *)
Definition module_globals : dict :=
  [ ("os", VObj "os");
    ("SeqIO", VObj "Bio.SeqIO");
    ("pprint", VObj "pprint.pprint");
    ("pformat", VObj "pprint.pformat");
    ("AssemblyUtil", VObj "AssemblyUtil.AssemblyUtilClient.AssemblyUtil");
    ("KBaseReport", VObj "KBaseReport.KBaseReportClient.KBaseReport");
    ("time", VObj "time");
    ("Velvet", VObj "Velvet") ].

(** Reading a name that is not a local of the function. *)
Definition global_get (name : string) : M value :=
  match dict_get name module_globals with
  | Some v => ret v
  | None => raise (NameError name)
  end.

(** The data attributes of the class. *)
Definition class_attrs : dict :=
  [ ("VERSION", VStr "0.0.1");
    ("GIT_URL", VStr "https://github.com/kbaseapps/Velvet.git");
    ("GIT_COMMIT_HASH", VStr "f9dd477aaf7d370fb238d63483ed4dd3e6856f64");
    ("VELVETH", VStr "/kb/module/velvet/velveth");
    ("VELVETG", VStr "/kb/module/velvet/velvetg") ].

(** The instance, as [__init__] leaves it. *)
Record Velvet : Type := {
  cfg : dict;
  callbackURL : string;
  workspaceURL : string;
  scratch : string
}.

Definition instance_attrs (self : Velvet) : dict :=
  [ ("cfg", VDict (cfg self));
    ("callbackURL", VStr (callbackURL self));
    ("workspaceURL", VStr (workspaceURL self));
    ("scratch", VStr (scratch self)) ].

Definition method_names : list string :=
  [ "log"; "process_params"; "__init__"; "run_velveth"; "run_velvetg"; "status" ].

(** [self.name] *)
Definition getattr (self : Velvet) (name : string) : M value :=
  match dict_get name (instance_attrs self) with
  | Some v => ret v
  | None =>
      match dict_get name class_attrs with
      | Some v => ret v
      | None =>
          if existsb (String.eqb name) method_names then ret (VObj name)
          else raise (AttributeError name)
      end
  end.

(** ** The world outside the interpreter *)

(** What the libraries and services answer.  The model does not look
    inside them. *)
Record World : Type := {
  pformat : value -> string;
  float_str : spec_float -> string;
  uuid4 : string;
  popen_wait : list string -> string -> Z;
  save_assembly_from_fasta : dict -> outcome value;
  seqio_parse : string -> outcome (list string);
  create_extended_report : dict -> outcome value
}.

(** ** The class [Velvet] *)

Section Methods.

Variable w : World.
Variable self : Velvet.

(** [log(self, message)], lines 48-50. *)
Definition log (message : string) : M unit :=
  _ <- global_get "time" ;;
  emit (EvLog message).

(** [print(line)] *)
Definition print (line : string) : M unit := emit (EvPrint line).

(** [process_params(self, params)], lines 52-67. *)
Definition process_params (params : dict) : M unit :=
  when (negb (dict_has "workspace_name" params))
    (raise (ValueError "a string reprsenting workspace_name parameter is required")) ;;
  when (negb (dict_has "out_folder" params))
    (raise (ValueError "a string reprsenting out_folder parameter is required")) ;;
  when (negb (dict_has "hash_length" params))
    (raise (ValueError "an integerreprsenting  hash_length parameter is required")) ;;
  when (dict_has "hash_length" params)
    (hash_length <- getitem params "hash_length" ;;
     when (negb (isinstance_int hash_length))
       (raise (ValueError "hash_length must be of type int"))) ;;
  when (negb (dict_has "reads_channels" params))
    (raise (ValueError "key-val pairs representing the reads_channels parameter is required")) ;;
  reads_channels <- getitem params "reads_channels" ;;
  when (negb (type_is_list reads_channels))
    (raise (ValueError "reads_channels must be a list")) ;;
  reads_channels <- getitem params "reads_channels" ;;
  channels <- iterate reads_channels ;;
  for_each channels
    (fun rc =>
       _ <- global_get "pformat" ;;
       log ("Read file channel info :" ++ nl ++ pformat w rc)).

(** *** [run_velveth], lines 115-219 *)

(** The files of a channel, lines 147-155 of the loop body. *)
Definition velveth_channel_files (velveth_cmd : list value) (rc read_type : value)
  : M (list value) :=
  velveth_cmd <-
    (if eq_str read_type "reference" then
       info <- subscript rc (VStr "read_file_info") ;;
       reference_file <- subscript info (VStr "reference_file") ;;
       ret (velveth_cmd ++ [reference_file])%list
     else ret velveth_cmd) ;;
  file_layout <- subscript rc (VStr "file_layout") ;;
  if eq_str file_layout "separate" then
    file_layout <- subscript rc (VStr "file_layout") ;;
    arg <- str_add "-" file_layout ;;
    let velveth_cmd := (velveth_cmd ++ [VStr arg])%list in
    info <- subscript rc (VStr "read_file_info") ;;
    left_file <- subscript info (VStr "left_file") ;;
    let velveth_cmd := (velveth_cmd ++ [left_file])%list in
    info <- subscript rc (VStr "read_file_info") ;;
    right_file <- subscript info (VStr "right_file") ;;
    ret (velveth_cmd ++ [right_file])%list
  else
    info <- subscript rc (VStr "read_file_info") ;;
    read_file <- subscript info (VStr "read_file") ;;
    ret (velveth_cmd ++ [read_file])%list.

(** The body of the loop over the reads channels, lines 144-155. *)
Definition velveth_channel (velveth_cmd : list value) (rc : value) : M (list value) :=
  file_format <- global_get "file_format" ;;
  fmt <- subscript rc file_format ;;
  arg <- str_add "-" fmt ;;
  let velveth_cmd := (velveth_cmd ++ [VStr arg])%list in
  read_type <- subscript rc (VStr "read_type") ;;
  arg <- str_add "-" read_type ;;
  let velveth_cmd := (velveth_cmd ++ [VStr arg])%list in
  velveth_channel_files velveth_cmd rc read_type.

(** Construction of the command, lines 133-155: the output directory
    and the argument vector. *)
Definition velveth_command (out_folder hash_length reads_channels : value)
  : M (string * list value) :=
  binary <- getattr self "MEGAHITH" ;;
  let velveth_cmd := [binary] in
  _ <- global_get "datetime" ;;
  _ <- global_get "datetime" ;;
  _ <- global_get "os" ;;
  output_dir <- os_path_join (scratch self) out_folder ;;
  let velveth_cmd := (velveth_cmd ++ [VStr output_dir])%list in
  let velveth_cmd := (velveth_cmd ++ [hash_length])%list in
  let velveth_cmd := (velveth_cmd ++ [out_folder])%list in
  channels <- iterate reads_channels ;;
  velveth_cmd <- for_fold channels velveth_cmd velveth_channel ;;
  ret (output_dir, velveth_cmd).

(** Running the command, lines 159-162: the return code of the process. *)
Definition velveth_spawn (velveth_cmd : list value) : M Z :=
  print "running velveth:" ;;
  line <- str_join " " velveth_cmd ;;
  print ("    " ++ line) ;;
  _ <- global_get "subprocess" ;;
  match all_str velveth_cmd with
  | Some argv =>
      emit (EvSpawn argv (scratch self)) ;;
      let retcode := popen_wait w argv (scratch self) in
      emit (EvWait retcode) ;;
      ret retcode
  | None => raise (TypeError "expected str, bytes or os.PathLike object")
  end.

(** The check of the return code, lines 164-166. *)
Definition velveth_check (retcode : Z) : M unit :=
  print ("Return code: " ++ str_int retcode) ;;
  when (negb (retcode =? 0))
    (raise (ValueError ("Error running VELVETH, return code: " ++ str_int retcode ++ nl))).

(** STEP 4, lines 171-176. *)
Definition velveth_save (params : dict) (output_contigs : string) : M value :=
  _ <- global_get "AssemblyUtil" ;;
  workspace_name <- getitem params "workspace_name" ;;
  assembly_name <- getitem params "output_contigset_name" ;;
  let args :=
    [ ("file", VDict [("path", VStr output_contigs)]);
      ("workspace_name", workspace_name);
      ("assembly_name", assembly_name) ] in
  emit (EvSaveAssembly args) ;;
  lift (save_assembly_from_fasta w args).

(** The lengths of the records of the contig file, lines 180-182. *)
Definition contig_lengths (output_contigs : string) : M (list Z) :=
  _ <- global_get "SeqIO" ;;
  emit (EvParseFasta output_contigs) ;;
  records <- lift (seqio_parse w output_contigs) ;;
  for_fold records []
    (fun lengths seq => ret (lengths ++ [Z.of_nat (String.length seq)])%list).

(** The text of the report, lines 184-187. *)
Definition velveth_report_text (params : dict) (lengths : list Z) : M string :=
  let report := "" in
  workspace_name <- getitem params "workspace_name" ;;
  line <- str_add "ContigSet saved to: " workspace_name ;;
  let line := line ++ "/" in
  name <- getitem params "output_contigset_name" ;;
  line <- str_add line name ;;
  let report := report ++ line ++ nl in
  let report := report ++ "Assembled into " ++ str_int (len lengths) ++ " contigs." ++ nl in
  count <- py_float (len lengths) ;;
  avg <- truediv (sum lengths) count ;;
  let report := report ++ "Avg Length: " ++ float_str w avg ++ " bp." ++ nl in
  ret report.

(** The statistics of the contig file as the report words them,
    lines 180-187. *)
Definition velveth_report (params : dict) (output_contigs : string) : M string :=
  lengths <- contig_lengths output_contigs ;;
  velveth_report_text params lengths.

(** [try: body except _RepError as re: print...; raise], lines 192-208:
    the class named by the clause is looked up when [body] raises. *)
Definition try_except_RepError {A} (body : M A) : M A :=
  match body with
  | (t, Raise e) =>
      (t, Return tt) ;;
      _ <- global_get "_RepError" ;;
      match e with
      | ServerError msg =>
          print "Logging exception from creating report object" ;;
          print msg ;;
          raise e
      | _ => raise e
      end
  | (t, Return a) => (t, Return a)
  end.

(** The call of the report service, lines 190-208. *)
Definition velveth_create_report (params : dict) (report : string)
    (output_data_ref : value) : M value :=
  print "Saving report" ;;
  _ <- global_get "KBaseReport" ;;
  try_except_RepError
    (quastret <- global_get "quastret" ;;
     shock_id <- subscript quastret (VStr "shock_id") ;;
     _ <- global_get "uuid" ;;
     workspace_name <- getitem params "workspace_name" ;;
     let args :=
       [ ("message", VStr report);
         ("objects_created",
           VList [VDict [("ref", output_data_ref);
                         ("description", VStr "Assembled contigs")]]);
         ("direct_html_link_index", VInt 0);
         ("html_links",
           VList [VDict [("shock_id", shock_id);
                         ("name", VStr "report.html");
                         ("label", VStr "VELVETH report")]]);
         ("report_object_name", VStr ("kb_velveth_report_" ++ uuid4 w));
         ("workspace_name", workspace_name) ] in
     emit (EvCreateReport args) ;;
     lift (create_extended_report w args)).

(** STEP 6 and the return, lines 211-219. *)
Definition velveth_output (report_info : value) : M (list value) :=
  name <- subscript report_info (VStr "name") ;;
  ref <- subscript report_info (VStr "ref") ;;
  let output := VDict [("report_name", name); ("report_ref", ref)] in
  when (negb (isinstance_dict output))
    (raise (ValueError
       "Method run_velveth return value output is not type dict as required.")) ;;
  ret [output].

(** STEPS 4 to 6, lines 168-219. *)
Definition velveth_save_and_report (params : dict) (output_dir : string)
  : M (list value) :=
  _ <- global_get "os" ;;
  let output_contigs := path_join output_dir "final.contigs.fa" in
  output_data_ref <- velveth_save params output_contigs ;;
  report <- velveth_report params output_contigs ;;
  report_info <- velveth_create_report params report output_data_ref ;;
  velveth_output report_info.

(** What follows [p.wait()], lines 164-219. *)
Definition velveth_after_wait (params : dict) (output_dir : string) (retcode : Z)
  : M (list value) :=
  velveth_check retcode ;;
  velveth_save_and_report params output_dir.

Definition run_velveth (ctx params : dict) : M (list value) :=
  _ <- global_get "pformat" ;;
  log ("Running run_velveth with params:" ++ nl ++ pformat w (VDict params)) ;;
  token <- getitem ctx "token" ;;
  process_params params ;;
  out_folder <- getitem params "out_fodler" ;;
  hash_length <- getitem params "hash_length" ;;
  wsname <- getitem params "workspace_name" ;;
  reads_channels <- getitem params "reads_channels" ;;
  cmd <- velveth_command out_folder hash_length reads_channels ;;
  let (output_dir, velveth_cmd) := cmd in
  retcode <- velveth_spawn velveth_cmd ;;
  velveth_after_wait params output_dir retcode.

(** *** [run_velvetg], lines 307-315 *)

Definition run_velvetg (ctx params : dict) : M (list value) :=
  output <- global_get "output" ;;
  when (negb (isinstance_dict output))
    (raise (ValueError
       "Method run_velvetg return value output is not type dict as required.")) ;;
  ret [output].

End Methods.

(** ** Parameter validation, case by case *)

(** The seven ways through [process_params]: six rejections, in the
    order of the checks, and the acceptance. *)
Inductive validation (w : World) (params : dict) : M unit -> Prop :=
| no_workspace_name :
    dict_get "workspace_name" params = None ->
    validation w params
      ([], Raise (ValueError "a string reprsenting workspace_name parameter is required"))
| no_out_folder ws :
    dict_get "workspace_name" params = Some ws ->
    dict_get "out_folder" params = None ->
    validation w params
      ([], Raise (ValueError "a string reprsenting out_folder parameter is required"))
| no_hash_length ws out :
    dict_get "workspace_name" params = Some ws ->
    dict_get "out_folder" params = Some out ->
    dict_get "hash_length" params = None ->
    validation w params
      ([], Raise (ValueError "an integerreprsenting  hash_length parameter is required"))
| bad_hash_length ws out h :
    dict_get "workspace_name" params = Some ws ->
    dict_get "out_folder" params = Some out ->
    dict_get "hash_length" params = Some h ->
    isinstance_int h = false ->
    validation w params ([], Raise (ValueError "hash_length must be of type int"))
| no_reads_channels ws out h :
    dict_get "workspace_name" params = Some ws ->
    dict_get "out_folder" params = Some out ->
    dict_get "hash_length" params = Some h ->
    isinstance_int h = true ->
    dict_get "reads_channels" params = None ->
    validation w params
      ([], Raise (ValueError
         "key-val pairs representing the reads_channels parameter is required"))
| bad_reads_channels ws out h rcs :
    dict_get "workspace_name" params = Some ws ->
    dict_get "out_folder" params = Some out ->
    dict_get "hash_length" params = Some h ->
    isinstance_int h = true ->
    dict_get "reads_channels" params = Some rcs ->
    type_is_list rcs = false ->
    validation w params ([], Raise (ValueError "reads_channels must be a list"))
| accepted ws out h channels :
    dict_get "workspace_name" params = Some ws ->
    dict_get "out_folder" params = Some out ->
    dict_get "hash_length" params = Some h ->
    isinstance_int h = true ->
    dict_get "reads_channels" params = Some (VList channels) ->
    validation w params
      (map (fun rc => EvLog ("Read file channel info :" ++ nl ++ pformat w rc)) channels,
       Return tt).

(** ** Observations on traces *)

Definition is_spawn (ev : event) : bool :=
  match ev with
  | EvSpawn _ _ => true
  | _ => false
  end.

Definition is_storage_call (ev : event) : bool :=
  match ev with
  | EvSaveAssembly _ => true
  | _ => false
  end.

Definition is_report_call (ev : event) : bool :=
  match ev with
  | EvCreateReport _ => true
  | _ => false
  end.

(** Only [self.log] and [print] output. *)
Definition is_output (ev : event) : bool :=
  match ev with
  | EvLog _ | EvPrint _ => true
  | _ => false
  end.

(** The number of processes a trace starts. *)
Definition spawn_count (t : list event) : nat := List.length (filter is_spawn t).

(** The total length of the sequences of a list of records. *)
Fixpoint total_length (records : list string) : Z :=
  match records with
  | [] => 0
  | seq :: rest => Z.of_nat (String.length seq) + total_length rest
  end.

(** ** Sample requests *)

Definition sample_world : World := {|
  pformat := fun _ => "{...}";
  float_str := fun _ => "5.0";
  uuid4 := "6f1c0d2e-58a1-4c0b-9d6e-2b7a3f4e5d60";
  popen_wait := fun _ _ => 1;
  save_assembly_from_fasta := fun _ => Return (VStr "7/3/1");
  seqio_parse := fun path =>
    if String.eqb path "/kb/module/work/tmp/out/final.contigs.fa"
    then Return ["ACGT"; "ACGTAC"] else Return [];
  create_extended_report := fun _ =>
    Return (VDict [("name", VStr "kb_velveth_report"); ("ref", VStr "7/4/1")])
|}.

Definition sample_self : Velvet := {|
  cfg := [("scratch", VStr "/kb/module/work/tmp")];
  callbackURL := "http://localhost:5000";
  workspaceURL := "https://kbase.us/services/ws";
  scratch := "/kb/module/work/tmp"
|}.

Definition sample_ctx : dict := [("token", VStr "secret")].

Definition sample_channel : value :=
  VDict [ ("read_type", VStr "reference");
          ("file_format", VStr "fasta");
          ("file_layout", VStr "separate");
          ("read_file_info",
            VDict [ ("read_file", VStr "reads.fa");
                    ("reference_file", VStr "test_reference.fa");
                    ("left_file", VStr "left.fa");
                    ("right_file", VStr "right.fa") ]) ].

(** A request with every field that [process_params] asks for. *)
Definition sample_params : dict :=
  [ ("workspace_name", VStr "my_ws");
    ("out_folder", VStr "out");
    ("hash_length", VInt 21);
    ("reads_channels", VList [sample_channel]) ].

(** The same request with [hash_length] a [bool]. *)
Definition bool_hash_params : dict :=
  [ ("workspace_name", VStr "my_ws");
    ("out_folder", VStr "out");
    ("hash_length", VBool true);
    ("reads_channels", VList []) ].

(** A request without [reads_channels]. *)
Definition no_channels_params : dict :=
  [ ("workspace_name", VStr "my_ws");
    ("out_folder", VStr "out");
    ("hash_length", VInt 21) ].

(** A request that names the assembly to save. *)
Definition named_params : dict :=
  ("output_contigset_name", VStr "velvet.contigs") :: sample_params.

(** ** The constructor and [status] *)

(** What the constructor sees of its host: the environment, the file
    system as [os.path] answers about it, and whether [os.makedirs]
    succeeds. *)
Record Host : Type := {
  environ : list (string * string);
  abspath : string -> string;
  path_exists : string -> bool;
  makedirs : string -> outcome unit
}.

(** What the constructor does outside the interpreter. *)
Inductive init_event : Type :=
| InitLog (message : string)
| InitMakedirs (path : string).

Fixpoint assoc_get (k : string) (l : list (string * string)) : option string :=
  match l with
  | [] => None
  | (k', v) :: rest => if String.eqb k k' then Some v else assoc_get k rest
  end.

(** [__init__(self, config)], lines 73-87; [config] holds the contents
    of the configuration file, or is [None]. *)
Definition __init__ (h : Host) (config : option (list (string * string)))
  : list init_event * outcome Velvet :=
  match assoc_get "SDK_CALLBACK_URL" (environ h) with
  | None => ([], Raise (KeyError (VStr "SDK_CALLBACK_URL")))
  | Some url =>
      let logged := [InitLog ("Callback URL: " ++ url)] in
      match config with
      | None => (logged, Raise (TypeError "'NoneType' object is not subscriptable"))
      | Some items =>
          match assoc_get "workspace-url" items with
          | None => (logged, Raise (KeyError (VStr "workspace-url")))
          | Some workspace_url =>
              match assoc_get "scratch" items with
              | None => (logged, Raise (KeyError (VStr "scratch")))
              | Some dir =>
                  let self :=
                    {| cfg := map (fun kv => (fst kv, VStr (snd kv))) items;
                       callbackURL := url;
                       workspaceURL := workspace_url;
                       scratch := abspath h dir |} in
                  if path_exists h (scratch self) then (logged, Return self)
                  else
                    match makedirs h (scratch self) with
                    | Return _ =>
                        ((logged ++ [InitMakedirs (scratch self)])%list, Return self)
                    | Raise e =>
                        ((logged ++ [InitMakedirs (scratch self)])%list, Raise e)
                    end
              end
          end
      end
  end.

(** [status(self, ctx)], lines 316-324. *)
Definition status (self : Velvet) (ctx : dict) : M (list value) :=
  version <- getattr self "VERSION" ;;
  git_url <- getattr self "GIT_URL" ;;
  git_commit_hash <- getattr self "GIT_COMMIT_HASH" ;;
  let returnVal :=
    VDict [ ("state", VStr "OK");
            ("message", VStr EmptyString);
            ("version", version);
            ("git_url", git_url);
            ("git_commit_hash", git_commit_hash) ] in
  ret [returnVal].

(** ** More observations and samples *)

(** [isinstance(v, str)] *)
Definition isinstance_str (v : value) : bool :=
  match v with
  | VStr _ => true
  | _ => false
  end.

(** The number of calls of the storage client in a trace. *)
Definition storage_count (t : list event) : nat :=
  List.length (filter is_storage_call t).

(** The number of calls of [os.makedirs] in a construction, failed ones
    included. *)
Definition makedirs_count (t : list init_event) : nat :=
  List.length
    (filter (fun ev => match ev with InitMakedirs _ => true | _ => false end) t).

(** A world whose assembler exits with 0 and leaves contig files without
    records. *)
Definition empty_contigs_world : World := {|
  pformat := pformat sample_world;
  float_str := float_str sample_world;
  uuid4 := uuid4 sample_world;
  popen_wait := fun _ _ => 0;
  save_assembly_from_fasta := save_assembly_from_fasta sample_world;
  seqio_parse := fun _ => Return [];
  create_extended_report := create_extended_report sample_world
|}.

(** A world whose storage service is down. *)
Definition storage_down_world : World := {|
  pformat := pformat sample_world;
  float_str := float_str sample_world;
  uuid4 := uuid4 sample_world;
  popen_wait := popen_wait sample_world;
  save_assembly_from_fasta := fun _ => Raise (ServerError "503 Service Unavailable");
  seqio_parse := seqio_parse sample_world;
  create_extended_report := create_extended_report sample_world
|}.

(** A request that passes validation and has the key that line 124 reads. *)
Definition fodler_params : dict := ("out_fodler", VStr "out") :: sample_params.

(** A request whose [workspace_name] is a number. *)
Definition numeric_ws_params : dict :=
  [ ("output_contigset_name", VStr "velvet.contigs");
    ("workspace_name", VInt 7);
    ("out_folder", VStr "out");
    ("hash_length", VInt 21);
    ("reads_channels", VList []) ].

(** A host with the callback URL set and no scratch directory yet. *)
Definition sample_host : Host := {|
  environ := [("HOME", "/root"); ("SDK_CALLBACK_URL", "http://localhost:5000")];
  abspath := fun p => if String.prefix "/" p then p else "/kb/module/" ++ p;
  path_exists := fun _ => false;
  makedirs := fun _ => Return tt
|}.

Definition sample_config : list (string * string) :=
  [ ("workspace-url", "https://kbase.us/services/ws");
    ("scratch", "work/tmp") ].

(** * Properties *)

(** ** The monad *)

Lemma trace_bind {A B} (m : M A) (f : A -> M B) :
  trace (bind m f) =
  match result m with
  | Return a => (trace m ++ trace (f a))%list
  | Raise _ => trace m
  end.
Proof.
  destruct m as [t [a | e]]; simpl; [ | reflexivity ].
  destruct (f a); reflexivity.
Qed.

Lemma result_bind {A B} (m : M A) (f : A -> M B) :
  result (bind m f) =
  match result m with
  | Return a => result (f a)
  | Raise e => Raise e
  end.
Proof.
  destruct m as [t [a | e]]; simpl; [ | reflexivity ].
  destruct (f a); reflexivity.
Qed.

Lemma bind_raise {A B} (t : list event) (e : exn) (f : A -> M B) :
  bind (t, Raise e) f = (t, Raise e).
Proof. reflexivity. Qed.

Lemma contains_middle (pre sub post : string) : contains (pre ++ sub ++ post) sub.
Proof. exists pre, post. reflexivity. Qed.

(** ** Logging *)

Lemma log_emits (message : string) : log message = ([EvLog message], Return tt).
Proof. reflexivity. Qed.

Lemma for_each_log (f : value -> string) (channels : list value) :
  for_each channels (fun rc => _ <- global_get "pformat" ;; log (f rc)) =
  (map (fun rc => EvLog (f rc)) channels, Return tt).
Proof.
  induction channels as [ | rc rest IH ]; cbn [for_each map].
  - reflexivity.
  - rewrite IH. reflexivity.
Qed.

Lemma Forall_output_logs (f : value -> string) (channels : list value) :
  Forall (fun ev => is_output ev = true) (map (fun rc => EvLog (f rc)) channels).
Proof.
  induction channels; simpl; constructor; auto.
Qed.

(** ** Parameter validation *)

Lemma process_params_validation (w : World) (params : dict) :
  validation w params (process_params w params).
Proof.
  unfold process_params, dict_has, getitem.
  destruct (dict_get "workspace_name" params) as [ws | ] eqn:Hws;
    [ | now apply no_workspace_name ].
  destruct (dict_get "out_folder" params) as [out | ] eqn:Hout;
    [ | now apply (no_out_folder _ _ ws) ].
  destruct (dict_get "hash_length" params) as [h | ] eqn:Hh;
    [ | now apply (no_hash_length _ _ ws out) ].
  cbn [when negb bind ret raise app].
  destruct (isinstance_int h) eqn:Hint;
    [ | now apply (bad_hash_length _ _ ws out h) ].
  cbn [when negb bind ret raise app].
  destruct (dict_get "reads_channels" params) as [rcs | ] eqn:Hrc;
    [ | now apply (no_reads_channels _ _ ws out h) ].
  cbn [when negb bind ret raise app].
  destruct (type_is_list rcs) eqn:Hlist;
    [ | now apply (bad_reads_channels _ _ ws out h rcs) ].
  destruct rcs; try discriminate Hlist.
  cbn [when negb bind ret raise iterate app].
  rewrite for_each_log.
  now apply (accepted _ _ ws out h l).
Qed.

Lemma dict_has_false (k : string) (d : dict) :
  dict_has k d = false <-> dict_get k d = None.
Proof.
  unfold dict_has. destruct (dict_get k d); split; intros H; congruence.
Qed.

Lemma dict_has_true (k : string) (d : dict) :
  dict_has k d = true <-> exists v, dict_get k d = Some v.
Proof.
  unfold dict_has. destruct (dict_get k d) as [v | ]; split; intros H.
  - now exists v.
  - reflexivity.
  - discriminate.
  - destruct H as [v H]. discriminate.
Qed.

Lemma process_params_quiet_on_raise (w : World) (params : dict) (e : exn) :
  result (process_params w params) = Raise e ->
  process_params w params = ([], Raise e).
Proof.
  destruct (process_params_validation w params); simpl; intros Hres;
    try (injection Hres as <-; reflexivity); discriminate.
Qed.

Lemma process_params_trace_output (w : World) (params : dict) :
  Forall (fun ev => is_output ev = true) (trace (process_params w params)).
Proof.
  destruct (process_params_validation w params); simpl; try constructor.
  apply Forall_output_logs.
Qed.

Lemma process_params_only_ValueError (w : World) (params : dict) (e : exn) :
  result (process_params w params) = Raise e -> exists msg, e = ValueError msg.
Proof.
  destruct (process_params_validation w params); simpl; intros Hres;
    try (injection Hres as <-; eexists; reflexivity); discriminate.
Qed.

(** C2, amended.  [process_params] raises exactly for the requests that
    lack [workspace_name], [out_folder], [hash_length] or
    [reads_channels], or whose [hash_length] is not an instance of [int],
    or whose [reads_channels] is not of type [list]: for these it raises,
    for every other request it returns, and what it raises is always a
    [ValueError]. *)
Theorem process_params_raises_iff (w : World) (params : dict) :
  ((exists e, result (process_params w params) = Raise e) <->
   ( dict_has "workspace_name" params = false
     \/ dict_has "out_folder" params = false
     \/ dict_has "hash_length" params = false
     \/ (exists h, dict_get "hash_length" params = Some h /\ isinstance_int h = false)
     \/ dict_has "reads_channels" params = false
     \/ (exists rcs,
           dict_get "reads_channels" params = Some rcs /\ type_is_list rcs = false) ))
  /\ (forall e, result (process_params w params) = Raise e ->
                exists msg, e = ValueError msg)
  /\ ((forall e, result (process_params w params) <> Raise e) ->
      result (process_params w params) = Return tt).
Proof.
  split; [ | split ].
  - rewrite !dict_has_false.
    destruct (process_params_validation w params); simpl; split; intros Hres.
    all: try (eexists; reflexivity).
    all: try solve [ eauto 10 ].
    + destruct Hres as [e Hres]. discriminate.
    + exfalso.
      destruct Hres as [G | [G | [G | [[h' [G G']] | [G | [rcs [G G']]]]]]];
        try congruence.
      assert (rcs = VList channels) as -> by congruence.
      discriminate G'.
  - apply process_params_only_ValueError.
  - intros Hno. destruct (result (process_params w params)) as [[] | e];
      [ reflexivity | destruct (Hno e); reflexivity ].
Qed.

(** C2, as stated, at a request that has [workspace_name], [out_folder]
    and an [int] [hash_length] but no [reads_channels]: [process_params]
    raises, although none of the five listed conditions holds. *)
Lemma process_params_rejects_absent_reads_channels :
  result (process_params sample_world no_channels_params) =
    Raise (ValueError
      "key-val pairs representing the reads_channels parameter is required")
  /\ ~ ( dict_has "workspace_name" no_channels_params = false
         \/ dict_has "out_folder" no_channels_params = false
         \/ dict_has "hash_length" no_channels_params = false
         \/ (exists h, dict_get "hash_length" no_channels_params = Some h
                       /\ isinstance_int h = false)
         \/ (exists rcs, dict_get "reads_channels" no_channels_params = Some rcs
                         /\ type_is_list rcs = false) ).
Proof.
  split; [ reflexivity | ].
  intros [H | [H | [H | [[h [H G]] | [rcs [H G]]]]]]; try discriminate H.
  injection H as <-. discriminate G.
Qed.

(** C9.  A request whose [hash_length] is [True] or [False] passes
    [process_params], since [isinstance(True, int)] holds. *)
Theorem process_params_accepts_bool_hash_length
    (w : World) (params : dict) (b : bool) (channels : list value) :
  dict_has "workspace_name" params = true ->
  dict_has "out_folder" params = true ->
  dict_get "hash_length" params = Some (VBool b) ->
  dict_get "reads_channels" params = Some (VList channels) ->
  result (process_params w params) = Return tt.
Proof.
  intros Hws Hout Hh Hrc.
  apply dict_has_true in Hws, Hout.
  destruct Hws as [ws Hws], Hout as [out Hout].
  destruct (process_params_validation w params); try congruence.
  - assert (h = VBool b) as -> by congruence. discriminate.
  - assert (rcs = VList channels) as -> by congruence. discriminate.
  - reflexivity.
Qed.

Lemma process_params_accepts_bool_hash_length_witness :
  dict_has "workspace_name" bool_hash_params = true
  /\ dict_has "out_folder" bool_hash_params = true
  /\ dict_get "hash_length" bool_hash_params = Some (VBool true)
  /\ dict_get "reads_channels" bool_hash_params = Some (VList [])
  /\ result (process_params sample_world bool_hash_params) = Return tt.
Proof.
  do 4 (split; [ reflexivity | ]).
  apply (process_params_accepts_bool_hash_length sample_world bool_hash_params true []);
    reflexivity.
Defined.

(** ** [run_velveth] *)

Lemma velveth_command_raises (self : Velvet)
    (out_folder hash_length reads_channels : value) :
  velveth_command self out_folder hash_length reads_channels =
  ([], Raise (AttributeError "MEGAHITH")).
Proof. reflexivity. Qed.

(** What a call of [run_velveth] comes to: it stops at [ctx['token']],
    in [process_params], at [params['out_fodler']] or at
    [self.MEGAHITH]. *)
Lemma run_velveth_outcome (w : World) (self : Velvet) (ctx params : dict) :
  run_velveth w self ctx params =
  let start :=
    EvLog ("Running run_velveth with params:" ++ nl ++ pformat w (VDict params)) in
  match dict_get "token" ctx with
  | None => ([start], Raise (KeyError (VStr "token")))
  | Some _ =>
      match process_params w params with
      | (t, Raise e) => (start :: t, Raise e)
      | (t, Return _) =>
          (start :: t,
           Raise match dict_get "out_fodler" params with
                 | None => KeyError (VStr "out_fodler")
                 | Some _ => AttributeError "MEGAHITH"
                 end)
      end
  end.
Proof.
  unfold run_velveth. rewrite log_emits. unfold getitem at 1.
  cbn [global_get module_globals dict_get String.eqb Ascii.eqb Bool.eqb bind ret app].
  destruct (dict_get "token" ctx) as [token | ]; [ | reflexivity ].
  cbn [bind ret app].
  destruct (process_params_validation w params) as
    [ | | | | | | ws out h channels Hws Hout Hh Hint Hrc ]; try reflexivity.
  unfold getitem. rewrite Hws, Hh, Hrc.
  destruct (dict_get "out_fodler" params); cbn; now rewrite app_nil_r.
Qed.

(** No call of [run_velveth] returns: whatever the context and the
    request, it raises. *)
Lemma run_velveth_raises (w : World) (self : Velvet) (ctx params : dict) :
  exists e, result (run_velveth w self ctx params) = Raise e.
Proof.
  rewrite run_velveth_outcome. cbv zeta.
  destruct (dict_get "token" ctx); [ | eexists; reflexivity ].
  destruct (process_params w params) as [t [[] | e]]; eexists; reflexivity.
Qed.

Lemma run_velveth_trace_output (w : World) (self : Velvet) (ctx params : dict) :
  Forall (fun ev => is_output ev = true) (trace (run_velveth w self ctx params)).
Proof.
  rewrite run_velveth_outcome. cbv zeta.
  pose proof (process_params_trace_output w params) as Ht.
  destruct (dict_get "token" ctx); [ | repeat constructor ].
  destruct (process_params w params) as [t [[] | e]]; simpl in *;
    constructor; auto.
Qed.

Lemma output_only_no_spawn (t : list event) :
  Forall (fun ev => is_output ev = true) t -> spawn_count t = 0%nat.
Proof.
  induction 1 as [ | ev t Hev Ht IH ]; [ reflexivity | ].
  unfold spawn_count in *.
  destruct ev; try discriminate Hev; simpl; auto.
Qed.

Lemma output_only_no_later_step (t : list event) :
  Forall (fun ev => is_output ev = true) t ->
  Forall (fun ev =>
    is_spawn ev = false /\ is_storage_call ev = false /\ is_report_call ev = false) t.
Proof.
  apply Forall_impl. intros ev Hev. destruct ev; try discriminate Hev; auto.
Qed.

(** C1, at a request that passes [process_params]: the call does not
    run to completion, it raises [KeyError] for the key [out_fodler]
    that line 124 reads, before any process is started. *)
Theorem run_velveth_stops_at_out_fodler (w : World) (self : Velvet) :
  result (process_params w sample_params) = Return tt
  /\ result (run_velveth w self sample_ctx sample_params) =
       Raise (KeyError (VStr "out_fodler"))
  /\ spawn_count (trace (run_velveth w self sample_ctx sample_params)) = 0%nat.
Proof. repeat split. Qed.

(** Lines 147-155 on their own, for a channel whose [read_file_info]
    names all four files: the reference file when the read type is
    ['reference'], then ['-separate'] with the left and right files when
    the layout is ['separate'], and the read file otherwise. *)
Lemma velveth_channel_files_appends
    (velveth_cmd : list value) (ch info : dict)
    (read_type file_layout reference_file left_file right_file read_file : value) :
  dict_get "read_file_info" ch = Some (VDict info) ->
  dict_get "file_layout" ch = Some file_layout ->
  dict_get "reference_file" info = Some reference_file ->
  dict_get "left_file" info = Some left_file ->
  dict_get "right_file" info = Some right_file ->
  dict_get "read_file" info = Some read_file ->
  velveth_channel_files velveth_cmd (VDict ch) read_type =
  ([], Return
     (velveth_cmd
      ++ (if eq_str read_type "reference" then [reference_file] else [])
      ++ (if eq_str file_layout "separate"
          then [VStr "-separate"; left_file; right_file]
          else [read_file]))%list).
Proof.
  intros Hinfo Hlayout Href Hleft Hright Hread.
  unfold velveth_channel_files, subscript, getitem.
  rewrite Hinfo, Hlayout.
  destruct (eq_str read_type "reference");
    cbn [bind ret app]; rewrite ?Href; cbn [bind ret app].
  all: destruct (eq_str file_layout "separate") eqn:Hsep.
  all: try (destruct file_layout as [ | | | | layout | | | ]; try discriminate Hsep;
            apply String.eqb_eq in Hsep; subst layout).
  all: cbn [bind ret app str_add]; rewrite ?Hleft, ?Hright, ?Hread;
    cbn [bind ret app]; rewrite <- ?app_assoc; reflexivity.
Qed.

(** C4, for every reads channel and every command built so far: the body
    of the loop reads the unbound name [file_format] at line 144 and
    raises [NameError]; nothing is appended. *)
Theorem velveth_channel_stops_at_file_format (velveth_cmd : list value) (rc : value) :
  velveth_channel velveth_cmd rc = ([], Raise (NameError "file_format")).
Proof. reflexivity. Qed.

(** C6.  [run_velvetg] has an empty body: it reads the unbound name
    [output] and raises [NameError] for every context and request. *)
Theorem run_velvetg_raises_NameError (ctx params : dict) :
  run_velvetg ctx params = ([], Raise (NameError "output")).
Proof. reflexivity. Qed.

(** C7.  When [process_params] rejects the request, [run_velveth] raises
    (the error of the validation, or [KeyError] when the context has no
    token) and its trace has no process start, no call of the storage
    client and no call of the report client. *)
Theorem rejected_params_stop_run_velveth
    (w : World) (self : Velvet) (ctx params : dict) (e : exn) :
  result (process_params w params) = Raise e ->
  (result (run_velveth w self ctx params) = Raise e
   \/ result (run_velveth w self ctx params) = Raise (KeyError (VStr "token")))
  /\ Forall (fun ev =>
       is_spawn ev = false /\ is_storage_call ev = false /\ is_report_call ev = false)
       (trace (run_velveth w self ctx params)).
Proof.
  intros Hrej. split.
  - rewrite run_velveth_outcome. cbv zeta.
    rewrite (process_params_quiet_on_raise _ _ _ Hrej).
    destruct (dict_get "token" ctx); [ left | right ]; reflexivity.
  - apply output_only_no_later_step, run_velveth_trace_output.
Qed.

Lemma rejected_params_stop_run_velveth_witness :
  result (process_params sample_world []) =
    Raise (ValueError "a string reprsenting workspace_name parameter is required")
  /\ ((result (run_velveth sample_world sample_self sample_ctx []) =
         Raise (ValueError "a string reprsenting workspace_name parameter is required")
       \/ result (run_velveth sample_world sample_self sample_ctx []) =
            Raise (KeyError (VStr "token")))
      /\ Forall (fun ev =>
           is_spawn ev = false /\ is_storage_call ev = false
           /\ is_report_call ev = false)
           (trace (run_velveth sample_world sample_self sample_ctx []))).
Proof.
  split; [ reflexivity | ].
  apply (rejected_params_stop_run_velveth sample_world sample_self sample_ctx []).
  reflexivity.
Defined.

(** C8, at every request that passes validation: the call raises and
    starts no process, where the claim has exactly one. *)
Theorem accepted_request_spawns_nothing
    (w : World) (self : Velvet) (ctx params : dict) :
  result (process_params w params) = Return tt ->
  (exists e, result (run_velveth w self ctx params) = Raise e)
  /\ spawn_count (trace (run_velveth w self ctx params)) = 0%nat.
Proof.
  intros Hok. split.
  - rewrite run_velveth_outcome. cbv zeta.
    destruct (dict_get "token" ctx); [ | eexists; reflexivity ].
    destruct (process_params w params) as [t [[] | e]]; eexists; reflexivity.
  - apply output_only_no_spawn, run_velveth_trace_output.
Qed.

Lemma accepted_request_spawns_nothing_witness :
  result (process_params sample_world sample_params) = Return tt
  /\ (exists e,
        result (run_velveth sample_world sample_self sample_ctx sample_params) = Raise e)
  /\ spawn_count (trace (run_velveth sample_world sample_self sample_ctx sample_params))
     = 0%nat.
Proof.
  split; [ reflexivity | ].
  apply (accepted_request_spawns_nothing sample_world sample_self sample_ctx
           sample_params).
  reflexivity.
Defined.

(** ** After the process has exited *)

Lemma velveth_check_nonzero (retcode : Z) :
  retcode <> 0 ->
  velveth_check retcode =
  ([EvPrint ("Return code: " ++ str_int retcode)],
   Raise (ValueError ("Error running VELVETH, return code: " ++ str_int retcode ++ nl))).
Proof.
  intros Hrc. unfold velveth_check, print, emit.
  apply Z.eqb_neq in Hrc. rewrite Hrc. reflexivity.
Qed.

(** C3.  From the return of [p.wait()] on, a return code other than 0
    makes the call raise [ValueError] with the code in its message, and
    neither the storage client nor the report client is called.  (This is
    the code of lines 164-219; a call of [run_velveth] as written stops
    before it, see [run_velveth_outcome].) *)
Theorem nonzero_retcode_is_fatal
    (w : World) (params : dict) (output_dir : string) (retcode : Z) :
  retcode <> 0 ->
  exists msg,
    result (velveth_after_wait w params output_dir retcode) = Raise (ValueError msg)
    /\ contains msg (str_int retcode)
    /\ Forall (fun ev => is_storage_call ev = false /\ is_report_call ev = false)
         (trace (velveth_after_wait w params output_dir retcode)).
Proof.
  intros Hrc. unfold velveth_after_wait.
  rewrite (velveth_check_nonzero _ Hrc), bind_raise.
  eexists. split; [ reflexivity | split ].
  - apply contains_middle.
  - repeat constructor.
Qed.

Lemma nonzero_retcode_is_fatal_witness :
  1 <> 0
  /\ exists msg,
       result (velveth_after_wait sample_world named_params "/kb/module/work/tmp/out" 1)
         = Raise (ValueError msg)
       /\ contains msg (str_int 1)
       /\ Forall (fun ev => is_storage_call ev = false /\ is_report_call ev = false)
            (trace (velveth_after_wait sample_world named_params
                      "/kb/module/work/tmp/out" 1)).
Proof.
  split; [ discriminate | ].
  apply (nonzero_retcode_is_fatal sample_world named_params "/kb/module/work/tmp/out" 1).
  discriminate.
Defined.

(** ** Conversion of small integers to [float] *)

Lemma digits2_pos_iter_xO (p k : positive) :
  digits2_pos (Pos.iter xO p k) = (digits2_pos p + k)%positive.
Proof.
  induction k as [ | k IH ] using Pos.peano_ind.
  - simpl. now rewrite Pos.add_1_r.
  - rewrite Pos.iter_succ. simpl. rewrite IH. now rewrite Pos.add_succ_r.
Qed.

Lemma digits2_pos_bound (p : positive) :
  forall k, 0 <= k -> Zpos p < 2 ^ k -> Zpos (digits2_pos p) <= k.
Proof.
  induction p as [ q IH | q IH | ]; intros k Hk Hlt; simpl digits2_pos.
  - destruct (Z.eq_dec k 0) as [-> | Hnz]; [ simpl in Hlt; lia | ].
    replace k with (Z.succ (k - 1)) in Hlt by lia.
    rewrite Z.pow_succ_r in Hlt by lia.
    specialize (IH (k - 1)). rewrite Pos2Z.inj_succ. lia.
  - destruct (Z.eq_dec k 0) as [-> | Hnz]; [ simpl in Hlt; lia | ].
    replace k with (Z.succ (k - 1)) in Hlt by lia.
    rewrite Z.pow_succ_r in Hlt by lia.
    specialize (IH (k - 1)). rewrite Pos2Z.inj_succ. lia.
  - destruct (Z.eq_dec k 0) as [-> | Hnz]; [ simpl in Hlt; lia | lia ].
Qed.

Lemma binary_round_aux_full (m : positive) (e : Z) :
  Zpos (digits2_pos m) = 53 -> -52 <= e <= 0 ->
  binary_round_aux prec emax false (Zpos m) e loc_Exact = S754_finite false m e.
Proof.
  intros Hd He.
  assert (Hstep : shr_fexp prec emax (Zpos m) e loc_Exact =
                  ({| shr_m := Zpos m; shr_r := false; shr_s := false |}, e)).
  { unfold shr_fexp, fexp, emin, prec, emax. simpl Zdigits2. rewrite Hd.
    replace (Z.max (53 + e - 53) (3 - 1024 - 53) - e) with 0 by lia.
    reflexivity. }
  unfold binary_round_aux. rewrite Hstep. simpl. rewrite Hstep. simpl.
  unfold emax, prec. simpl Z.sub.
  destruct (Z.leb_spec e 971); [ reflexivity | lia ].
Qed.

(** An integer from 1 to [2^53 - 1] converts to a finite float that is
    not zero. *)
Lemma float_of_int_small (n : Z) :
  0 < n < 2 ^ 53 ->
  exists m e, float_of_int n = S754_finite false m e.
Proof.
  intros [Hpos Hlt]. destruct n as [ | p | p ]; try lia.
  pose proof (digits2_pos_bound p 53 ltac:(lia) Hlt) as Hd.
  unfold float_of_int, binary_normalize, binary_round, shl_align, fexp, emin.
  unfold prec at 1 2 3, emax at 1.
  set (d := digits2_pos p) in *.
  replace (Z.max (Zpos d + 0 - 53) (3 - 1024 - 53) - 0) with (Zpos d - 53) by lia.
  destruct (Zpos d - 53) as [ | k | k ] eqn:Hk; try lia.
  - eexists _, _. apply binary_round_aux_full; fold d; lia.
  - eexists _, _.
    apply binary_round_aux_full.
    + rewrite digits2_pos_iter_xO. fold d. lia.
    + unfold prec, emax.
      change (-52 <= Z.max (Zpos d + 0 - 53) (3 - 1024 - 53) <= 0). lia.
Qed.

Lemma py_float_small (n : Z) :
  0 <= n < 2 ^ 53 -> py_float n = ([], Return (float_of_int n)).
Proof.
  intros [Hlo Hhi]. unfold py_float.
  destruct (Z.eq_dec n 0) as [-> | Hnz]; [ reflexivity | ].
  destruct (float_of_int_small n ltac:(lia)) as (m & e & ->). reflexivity.
Qed.

Lemma float_of_int_nonzero (n : Z) :
  0 < n < 2 ^ 53 -> float_is_zero (float_of_int n) = false.
Proof.
  intros Hn. destruct (float_of_int_small n Hn) as (m & e & ->). reflexivity.
Qed.

(** ** The statistics of the report *)

Lemma string_app_assoc (a b c : string) : (a ++ b) ++ c = a ++ b ++ c.
Proof.
  induction a as [ | ch a IH ]; simpl; [ reflexivity | now rewrite IH ].
Qed.

Lemma for_fold_lengths (records : list string) (acc : list Z) :
  for_fold records acc
    (fun lengths seq => ret (lengths ++ [Z.of_nat (String.length seq)])%list) =
  ([], Return (acc ++ map (fun seq => Z.of_nat (String.length seq)) records)%list).
Proof.
  revert acc. induction records as [ | seq rest IH ]; intros acc; simpl.
  - now rewrite app_nil_r.
  - rewrite IH. now rewrite <- app_assoc.
Qed.

Lemma contig_lengths_parsed (w : World) (path : string) (records : list string) :
  seqio_parse w path = Return records ->
  contig_lengths w path =
  ([EvParseFasta path],
   Return (map (fun seq => Z.of_nat (String.length seq)) records)).
Proof.
  intros Hparse. unfold contig_lengths. rewrite Hparse. simpl.
  now rewrite for_fold_lengths.
Qed.

Lemma fold_left_add_shift (l : list Z) (a : Z) :
  fold_left Z.add l a = a + fold_left Z.add l 0.
Proof.
  revert a. induction l as [ | x l IH ]; intros a; simpl; [ lia | ].
  rewrite (IH (a + x)), (IH x). lia.
Qed.

Lemma sum_lengths (records : list string) :
  sum (map (fun seq => Z.of_nat (String.length seq)) records) = total_length records.
Proof.
  unfold sum. induction records as [ | seq rest IH ]; simpl; [ reflexivity | ].
  rewrite fold_left_add_shift, IH. reflexivity.
Qed.

Lemma len_lengths (records : list string) :
  len (map (fun seq => Z.of_nat (String.length seq)) records) = len records.
Proof. unfold len. now rewrite length_map. Qed.

Lemma total_length_nonneg (records : list string) : 0 <= total_length records.
Proof. induction records; simpl; lia. Qed.

Lemma len_positive {A} (l : list A) : l <> [] -> 0 < len l.
Proof. destruct l; [ congruence | unfold len; simpl; lia ]. Qed.

(** C5.  For a contig file with at least one record (count and total
    length below [2^53]), the text that lines 180-187 build for the
    report gives as count the number of records parsed, and as average
    length the [float] quotient of the sum of the sequence lengths by that
    number.  (A call of [run_velveth] as written stops before these
    lines, see [run_velveth_outcome].) *)
Theorem report_statistics_exact
    (w : World) (params : dict) (path ws name : string) (records : list string) :
  dict_get "workspace_name" params = Some (VStr ws) ->
  dict_get "output_contigset_name" params = Some (VStr name) ->
  seqio_parse w path = Return records ->
  records <> [] ->
  len records < 2 ^ 53 ->
  total_length records < 2 ^ 53 ->
  result (velveth_report w params path) =
  Return ("ContigSet saved to: " ++ ws ++ "/" ++ name ++ nl
          ++ "Assembled into " ++ str_int (len records) ++ " contigs." ++ nl
          ++ "Avg Length: "
          ++ float_str w (SFdiv prec emax (float_of_int (total_length records))
                                          (float_of_int (len records)))
          ++ " bp." ++ nl).
Proof.
  intros Hws Hname Hparse Hne Hlen Htot.
  pose proof (len_positive records Hne) as Hpos.
  pose proof (total_length_nonneg records) as Hnn.
  unfold velveth_report.
  rewrite result_bind, (contig_lengths_parsed _ _ _ Hparse). cbn [result snd].
  unfold velveth_report_text, getitem, truediv.
  rewrite Hws, Hname, sum_lengths, len_lengths.
  rewrite (py_float_small (len records)) by lia.
  rewrite (py_float_small (total_length records)) by lia.
  cbn [bind ret raise str_add app result snd].
  rewrite (float_of_int_nonzero (len records)) by lia.
  cbn [bind ret raise str_add app result snd].
  f_equal. rewrite !string_app_assoc. reflexivity.
Qed.

Lemma report_statistics_exact_witness :
  dict_get "workspace_name" named_params = Some (VStr "my_ws")
  /\ dict_get "output_contigset_name" named_params = Some (VStr "velvet.contigs")
  /\ seqio_parse sample_world "/kb/module/work/tmp/out/final.contigs.fa" =
       Return ["ACGT"; "ACGTAC"]
  /\ ["ACGT"; "ACGTAC"] <> []
  /\ len ["ACGT"; "ACGTAC"] < 2 ^ 53
  /\ total_length ["ACGT"; "ACGTAC"] < 2 ^ 53
  /\ result (velveth_report sample_world named_params
               "/kb/module/work/tmp/out/final.contigs.fa") =
     Return ("ContigSet saved to: " ++ "my_ws" ++ "/" ++ "velvet.contigs" ++ nl
             ++ "Assembled into " ++ str_int (len ["ACGT"; "ACGTAC"]) ++ " contigs." ++ nl
             ++ "Avg Length: "
             ++ float_str sample_world
                  (SFdiv prec emax (float_of_int (total_length ["ACGT"; "ACGTAC"]))
                                   (float_of_int (len ["ACGT"; "ACGTAC"])))
             ++ " bp." ++ nl).
Proof.
  split; [ reflexivity | ].
  split; [ reflexivity | ].
  split; [ reflexivity | ].
  split; [ discriminate | ].
  split; [ reflexivity | ].
  split; [ reflexivity | ].
  apply (report_statistics_exact sample_world named_params
           "/kb/module/work/tmp/out/final.contigs.fa" "my_ws" "velvet.contigs"
           ["ACGT"; "ACGTAC"]);
    first [ reflexivity | discriminate ].
Defined.

(** The fixture of the witness by hand: two contigs of 4 and 6 bases,
    average 10 / 2.0 = 5.0. *)
Example sample_average :
  len ["ACGT"; "ACGTAC"] = 2
  /\ total_length ["ACGT"; "ACGTAC"] = 10
  /\ SFdiv prec emax (float_of_int 10) (float_of_int 2) = float_of_int 5.
Proof. repeat split. Qed.

(** The code after [p.wait()], lines 164-219: with the process exited
    with 0 and the assembly saved, a contig file without records makes
    line 187 divide by [float(0)]; [ZeroDivisionError] is raised and the
    report client is not called. *)
Theorem empty_contig_file_divides_by_zero
    (w : World) (params : dict) (output_dir ws name : string) (ref : value) :
  dict_get "workspace_name" params = Some (VStr ws) ->
  dict_get "output_contigset_name" params = Some (VStr name) ->
  save_assembly_from_fasta w
    [ ("file", VDict [("path", VStr (path_join output_dir "final.contigs.fa"))]);
      ("workspace_name", VStr ws);
      ("assembly_name", VStr name) ] = Return ref ->
  seqio_parse w (path_join output_dir "final.contigs.fa") = Return [] ->
  result (velveth_after_wait w params output_dir 0) =
    Raise (ZeroDivisionError "float division by zero")
  /\ Forall (fun ev => is_report_call ev = false)
       (trace (velveth_after_wait w params output_dir 0)).
Proof.
  intros Hws Hname Hsave Hparse.
  unfold velveth_after_wait, velveth_save_and_report, velveth_save, velveth_report,
    velveth_report_text, getitem.
  remember (path_join output_dir "final.contigs.fa") as output_contigs.
  rewrite Hws, Hname, (contig_lengths_parsed _ _ _ Hparse).
  cbn [bind ret raise emit lift app velveth_check when negb Z.eqb print global_get
       dict_get module_globals String.eqb Ascii.eqb Bool.eqb].
  rewrite Hsave.
  split; [ reflexivity | repeat constructor ].
Qed.

Lemma empty_contig_file_divides_by_zero_witness :
  dict_get "workspace_name" named_params = Some (VStr "my_ws")
  /\ dict_get "output_contigset_name" named_params = Some (VStr "velvet.contigs")
  /\ save_assembly_from_fasta sample_world
       [ ("file",
           VDict [("path", VStr (path_join "/kb/module/work/empty" "final.contigs.fa"))]);
         ("workspace_name", VStr "my_ws");
         ("assembly_name", VStr "velvet.contigs") ] = Return (VStr "7/3/1")
  /\ seqio_parse sample_world (path_join "/kb/module/work/empty" "final.contigs.fa") =
       Return []
  /\ result (velveth_after_wait sample_world named_params "/kb/module/work/empty" 0) =
       Raise (ZeroDivisionError "float division by zero")
  /\ Forall (fun ev => is_report_call ev = false)
       (trace (velveth_after_wait sample_world named_params "/kb/module/work/empty" 0)).
Proof.
  split; [ reflexivity | ].
  split; [ reflexivity | ].
  split; [ reflexivity | ].
  split; [ reflexivity | ].
  apply (empty_contig_file_divides_by_zero sample_world named_params
           "/kb/module/work/empty" "my_ws" "velvet.contigs" (VStr "7/3/1"));
    reflexivity.
Defined.

(** C10, at a request that passes validation, with an assembler that
    leaves a contig file without records: the call raises [KeyError] for
    [out_fodler] on line 124, not [ZeroDivisionError].  No call of
    [run_velveth] raises [ZeroDivisionError]: none reaches line 187. *)
Theorem run_velveth_stops_before_division :
  result (process_params empty_contigs_world named_params) = Return tt
  /\ seqio_parse empty_contigs_world "/kb/module/work/tmp/out/final.contigs.fa" =
     Return []
  /\ result (run_velveth empty_contigs_world sample_self sample_ctx named_params) =
     Raise (KeyError (VStr "out_fodler"))
  /\ (forall w self ctx params msg,
        result (run_velveth w self ctx params) <> Raise (ZeroDivisionError msg)).
Proof.
  do 3 (split; [ reflexivity | ]).
  intros w self ctx params msg. rewrite run_velveth_outcome. cbv zeta.
  destruct (dict_get "token" ctx); [ | discriminate ].
  destruct (process_params w params) as [t [[] | e]] eqn:Hpp.
  - destruct (dict_get "out_fodler" params); discriminate.
  - destruct (process_params_only_ValueError w params e) as [m ->];
      [ rewrite Hpp; reflexivity | discriminate ].
Qed.

(** * Further properties of the class *)

(** ** [process_params] *)

(** Every check comes before the first log line: a rejected request
    leaves no trace, an accepted one leaves one log line for each reads
    channel, in the order of the list, and nothing else. *)
Theorem process_params_logs_after_checks (w : World) (params : dict) :
  match result (process_params w params) with
  | Raise _ => trace (process_params w params) = []
  | Return _ =>
      exists channels,
        dict_get "reads_channels" params = Some (VList channels)
        /\ trace (process_params w params) =
           map (fun rc => EvLog ("Read file channel info :" ++ nl ++ pformat w rc))
               channels
  end.
Proof.
  destruct (process_params_validation w params); simpl; try reflexivity.
  exists channels. split; [ assumption | reflexivity ].
Qed.

(** The error names the first check that fails, in the order
    [workspace_name], [out_folder], [hash_length] (presence, then type),
    [reads_channels] (presence, then type); later fields are not looked
    at. *)
Theorem process_params_first_failure (w : World) (params : dict) :
  (dict_has "workspace_name" params = false ->
   result (process_params w params) =
   Raise (ValueError "a string reprsenting workspace_name parameter is required"))
  /\ (dict_has "workspace_name" params = true ->
      dict_has "out_folder" params = false ->
      result (process_params w params) =
      Raise (ValueError "a string reprsenting out_folder parameter is required"))
  /\ (dict_has "workspace_name" params = true ->
      dict_has "out_folder" params = true ->
      dict_has "hash_length" params = false ->
      result (process_params w params) =
      Raise (ValueError "an integerreprsenting  hash_length parameter is required"))
  /\ (forall h,
      dict_has "workspace_name" params = true ->
      dict_has "out_folder" params = true ->
      dict_get "hash_length" params = Some h ->
      isinstance_int h = false ->
      result (process_params w params) =
      Raise (ValueError "hash_length must be of type int"))
  /\ (forall h,
      dict_has "workspace_name" params = true ->
      dict_has "out_folder" params = true ->
      dict_get "hash_length" params = Some h ->
      isinstance_int h = true ->
      dict_has "reads_channels" params = false ->
      result (process_params w params) =
      Raise (ValueError
        "key-val pairs representing the reads_channels parameter is required"))
  /\ (forall h rcs,
      dict_has "workspace_name" params = true ->
      dict_has "out_folder" params = true ->
      dict_get "hash_length" params = Some h ->
      isinstance_int h = true ->
      dict_get "reads_channels" params = Some rcs ->
      type_is_list rcs = false ->
      result (process_params w params) =
      Raise (ValueError "reads_channels must be a list")).
Proof.
  rewrite !dict_has_false, !dict_has_true.
  destruct (process_params_validation w params) as
    [ Hws | ws Hws Hout | ws out Hws Hout Hh | ws out h Hws Hout Hh Hint
    | ws out h Hws Hout Hh Hint Hrc | ws out h rcs Hws Hout Hh Hint Hrc Hlist
    | ws out h channels Hws Hout Hh Hint Hrc ];
    simpl; repeat split; intros;
    repeat match goal with
           | H : exists _, _ |- _ => destruct H
           | H : dict_has _ _ = true |- _ => apply dict_has_true in H
           | H : dict_has _ _ = false |- _ => apply dict_has_false in H
           end;
    try reflexivity; try congruence.
  all: repeat match goal with
       | H1 : ?x = Some ?a, H2 : ?x = Some ?b |- _ =>
           rewrite H1 in H2; injection H2 as <-
       end.
  all: first [ congruence | discriminate ].
Qed.

(** ** [run_velveth] as a whole *)

(** With a token in the context and a request that passes validation,
    the call raises [KeyError] for [out_fodler] when the request has no
    such key, and [AttributeError] for [MEGAHITH] when it has. *)
Theorem run_velveth_accepted_outcome
    (w : World) (self : Velvet) (ctx params : dict) (token : value) :
  dict_get "token" ctx = Some token ->
  result (process_params w params) = Return tt ->
  result (run_velveth w self ctx params) =
  Raise match dict_get "out_fodler" params with
        | None => KeyError (VStr "out_fodler")
        | Some _ => AttributeError "MEGAHITH"
        end.
Proof.
  intros Htoken Hok. rewrite run_velveth_outcome. cbv zeta. rewrite Htoken.
  destruct (process_params w params) as [t [[] | e]]; [ reflexivity | discriminate Hok ].
Qed.

Lemma run_velveth_accepted_outcome_witness :
  dict_get "token" sample_ctx = Some (VStr "secret")
  /\ result (process_params sample_world fodler_params) = Return tt
  /\ result (run_velveth sample_world sample_self sample_ctx fodler_params) =
     Raise match dict_get "out_fodler" fodler_params with
           | None => KeyError (VStr "out_fodler")
           | Some _ => AttributeError "MEGAHITH"
           end.
Proof.
  split; [ reflexivity | ].
  split; [ reflexivity | ].
  apply (run_velveth_accepted_outcome sample_world sample_self sample_ctx fodler_params
           (VStr "secret")); reflexivity.
Defined.

(** The token is read and not used: two contexts that both hold a token
    give the same trace and the same outcome, whatever the tokens and
    whatever else the contexts hold. *)
Theorem run_velveth_ignores_token
    (w : World) (self : Velvet) (ctx1 ctx2 params : dict) (token1 token2 : value) :
  dict_get "token" ctx1 = Some token1 ->
  dict_get "token" ctx2 = Some token2 ->
  run_velveth w self ctx1 params = run_velveth w self ctx2 params.
Proof.
  intros H1 H2. rewrite !run_velveth_outcome. cbv zeta. now rewrite H1, H2.
Qed.

Lemma run_velveth_ignores_token_witness :
  dict_get "token" sample_ctx = Some (VStr "secret")
  /\ dict_get "token" [("user_id", VStr "someone"); ("token", VStr "other")] =
     Some (VStr "other")
  /\ run_velveth sample_world sample_self sample_ctx sample_params =
     run_velveth sample_world sample_self
       [("user_id", VStr "someone"); ("token", VStr "other")] sample_params.
Proof.
  split; [ reflexivity | ].
  split; [ reflexivity | ].
  apply (run_velveth_ignores_token sample_world sample_self sample_ctx
           [("user_id", VStr "someone"); ("token", VStr "other")] sample_params
           (VStr "secret") (VStr "other")); reflexivity.
Defined.

(** The request is logged before the token is read and before it is
    validated: the trace of every call is that log line, followed by the
    log lines of [process_params] when the context has a token, and
    nothing more. *)
Theorem run_velveth_trace (w : World) (self : Velvet) (ctx params : dict) :
  trace (run_velveth w self ctx params) =
  EvLog ("Running run_velveth with params:" ++ nl ++ pformat w (VDict params))
  :: match dict_get "token" ctx with
     | None => []
     | Some _ => trace (process_params w params)
     end.
Proof.
  rewrite run_velveth_outcome. cbv zeta.
  destruct (dict_get "token" ctx); [ | reflexivity ].
  destruct (process_params w params) as [t [[] | e]]; reflexivity.
Qed.

(** ** Running the command *)

Lemma all_str_with_other (pre post : list value) (item : value) :
  isinstance_str item = false -> all_str (pre ++ item :: post) = None.
Proof.
  intros Hitem. induction pre as [ | v pre IH ]; simpl.
  - destruct item; try reflexivity. discriminate Hitem.
  - destruct v; try reflexivity. now rewrite IH.
Qed.

Lemma velveth_spawn_outcome (w : World) (self : Velvet) (velveth_cmd : list value) :
  velveth_spawn w self velveth_cmd =
  match all_str velveth_cmd with
  | Some argv =>
      ([EvPrint "running velveth:"; EvPrint ("    " ++ String.concat " " argv)],
       Raise (NameError "subprocess"))
  | None =>
      ([EvPrint "running velveth:"],
       Raise (TypeError "sequence item: expected str instance"))
  end.
Proof.
  unfold velveth_spawn, str_join. destruct (all_str velveth_cmd); reflexivity.
Qed.

Lemma all_str_map (argv : list string) : all_str (map VStr argv) = Some argv.
Proof.
  induction argv as [ | a argv IH ]; simpl; [ reflexivity | now rewrite IH ].
Qed.

Lemma all_str_other (velveth_cmd : list value) :
  Exists (fun item => isinstance_str item = false) velveth_cmd ->
  all_str velveth_cmd = None.
Proof.
  induction 1 as [ item rest Hitem | item rest Hrest IH ]; simpl.
  - destruct item; try reflexivity. discriminate Hitem.
  - destruct item; try reflexivity. now rewrite IH.
Qed.

Lemma str_or_other (velveth_cmd : list value) :
  Exists (fun item => isinstance_str item = false) velveth_cmd
  \/ exists argv, velveth_cmd = map VStr argv.
Proof.
  induction velveth_cmd as [ | item rest [IH | [argv ->]] ].
  - right. now exists [].
  - left. now apply Exists_cons_tl.
  - destruct item as [ | | | | s | | | ];
      try (left; apply Exists_cons_hd; reflexivity).
    right. now exists (s :: argv).
Qed.

(** The block that runs the command starts no process, whatever the
    command.  When an item of the command is not a [str], [' '.join]
    raises [TypeError] after ['running velveth:'] alone is printed; when
    all items are, the command line is printed as well and then the
    unbound name [subprocess] raises [NameError].  Every command is of
    one kind or the other. *)
Theorem velveth_spawn_starts_nothing
    (w : World) (self : Velvet) (velveth_cmd : list value) :
  spawn_count (trace (velveth_spawn w self velveth_cmd)) = 0%nat
  /\ (Exists (fun item => isinstance_str item = false) velveth_cmd ->
      velveth_spawn w self velveth_cmd =
      ([EvPrint "running velveth:"],
       Raise (TypeError "sequence item: expected str instance")))
  /\ (forall argv, velveth_cmd = map VStr argv ->
      velveth_spawn w self velveth_cmd =
      ([EvPrint "running velveth:"; EvPrint ("    " ++ String.concat " " argv)],
       Raise (NameError "subprocess")))
  /\ (Exists (fun item => isinstance_str item = false) velveth_cmd
      \/ exists argv, velveth_cmd = map VStr argv).
Proof.
  rewrite velveth_spawn_outcome. split; [ | split; [ | split ] ].
  - destruct (all_str velveth_cmd); reflexivity.
  - intros Hother. now rewrite (all_str_other _ Hother).
  - intros argv ->. now rewrite all_str_map.
  - apply str_or_other.
Qed.

(** A command that holds an [int], as [hash_length] is after validation
    (line 140 appends it unconverted), is rejected by [' '.join] with
    [TypeError] before its line is printed. *)
Theorem velveth_spawn_rejects_int_item
    (w : World) (self : Velvet) (pre post : list value) (hash_length : value) :
  isinstance_int hash_length = true ->
  velveth_spawn w self (pre ++ hash_length :: post) =
  ([EvPrint "running velveth:"],
   Raise (TypeError "sequence item: expected str instance")).
Proof.
  intros Hint. rewrite velveth_spawn_outcome, all_str_with_other; [ reflexivity | ].
  destruct hash_length; try discriminate Hint; reflexivity.
Qed.

Lemma velveth_spawn_rejects_int_item_witness :
  isinstance_int (VInt 21) = true
  /\ velveth_spawn sample_world sample_self
       ([VStr "/kb/module/velvet/velveth"; VStr "/kb/module/work/tmp/out"]
        ++ VInt 21 :: [VStr "out"]) =
     ([EvPrint "running velveth:"],
      Raise (TypeError "sequence item: expected str instance")).
Proof.
  split; [ reflexivity | ].
  apply (velveth_spawn_rejects_int_item sample_world sample_self
           [VStr "/kb/module/velvet/velveth"; VStr "/kb/module/work/tmp/out"]
           [VStr "out"] (VInt 21)).
  reflexivity.
Defined.

(** ** The return code *)

(** The check of the return code lets 0 through and nothing else (a
    negative code, of a process killed by a signal, is an error too); in
    both cases the code is printed first. *)
Theorem velveth_check_passes_iff (retcode : Z) :
  (result (velveth_check retcode) = Return tt <-> retcode = 0)
  /\ trace (velveth_check retcode) = [EvPrint ("Return code: " ++ str_int retcode)].
Proof.
  unfold velveth_check, print, emit.
  destruct (Z.eqb_spec retcode 0) as [-> | Hnz]; simpl; split; try reflexivity.
  - split; reflexivity.
  - split; [ discriminate | intros ->; congruence ].
Qed.

(** ** The report service *)

(** The handler of the [try] names a class that is bound nowhere: an
    exception of the body, whatever it is, is replaced by [NameError] for
    [_RepError] without anything being printed, and a body that returns
    is left alone. *)
Theorem try_except_RepError_masks {A} (body : M A) :
  trace (try_except_RepError body) = trace body
  /\ match result body with
     | Return a => result (try_except_RepError body) = Return a
     | Raise _ => result (try_except_RepError body) = Raise (NameError "_RepError")
     end.
Proof.
  destruct body as [t [a | e]]; simpl; [ split; reflexivity | ].
  split; [ apply app_nil_r | reflexivity ].
Qed.

Lemma velveth_create_report_raises
    (w : World) (params : dict) (report : string) (output_data_ref : value) :
  velveth_create_report w params report output_data_ref =
  ([EvPrint "Saving report"], Raise (NameError "_RepError")).
Proof. reflexivity. Qed.

(** STEP 6 returns one [dict] with the two fields [report_name] and
    [report_ref], taken from [name] and [ref] of the answer of the report
    service, when that answer has both; otherwise it raises what the
    subscript raises.  The [ValueError] of lines 215-217 is never
    raised. *)
Theorem velveth_output_shape (report_info : value) :
  match result (velveth_output report_info) with
  | Return output =>
      exists name ref,
        result (subscript report_info (VStr "name")) = Return name
        /\ result (subscript report_info (VStr "ref")) = Return ref
        /\ output = [VDict [("report_name", name); ("report_ref", ref)]]
  | Raise (ValueError _) => False
  | Raise e =>
      result (subscript report_info (VStr "name")) = Raise e
      \/ result (subscript report_info (VStr "ref")) = Raise e
  end.
Proof.
  unfold velveth_output. rewrite result_bind.
  destruct (subscript report_info (VStr "name")) as [t1 [name | e1]] eqn:Hname.
  - cbn [result snd]. rewrite result_bind.
    destruct (subscript report_info (VStr "ref")) as [t2 [ref | e2]] eqn:Href.
    + cbn. exists name, ref. repeat split.
    + cbn [result snd].
      destruct report_info; cbn in Href; unfold getitem in Href;
        repeat match type of Href with
               | context [match ?x with _ => _ end] => destruct x
               end;
        inversion Href; subst; auto.
  - cbn [result snd].
    destruct report_info; cbn in Hname; unfold getitem in Hname;
      repeat match type of Hname with
             | context [match ?x with _ => _ end] => destruct x
             end;
      inversion Hname; subst; auto.
Qed.

(** ** After the process has exited with 0 *)

Lemma velveth_save_outcome (w : World) (params : dict) (output_contigs : string) :
  velveth_save w params output_contigs =
  match dict_get "workspace_name" params with
  | None => ([], Raise (KeyError (VStr "workspace_name")))
  | Some workspace_name =>
      match dict_get "output_contigset_name" params with
      | None => ([], Raise (KeyError (VStr "output_contigset_name")))
      | Some assembly_name =>
          let args :=
            [ ("file", VDict [("path", VStr output_contigs)]);
              ("workspace_name", workspace_name);
              ("assembly_name", assembly_name) ] in
          ([EvSaveAssembly args], save_assembly_from_fasta w args)
      end
  end.
Proof.
  unfold velveth_save, getitem.
  destruct (dict_get "workspace_name" params); [ | reflexivity ].
  destruct (dict_get "output_contigset_name" params); [ | reflexivity ].
  cbn. destruct (save_assembly_from_fasta w _); reflexivity.
Qed.

Lemma velveth_after_wait_zero (w : World) (params : dict) (output_dir : string) :
  velveth_after_wait w params output_dir 0 =
  (output_data_ref <- (EvPrint "Return code: 0" :: trace
                         (velveth_save w params (path_join output_dir "final.contigs.fa")),
                       result
                         (velveth_save w params (path_join output_dir "final.contigs.fa"))) ;;
   report <- velveth_report w params (path_join output_dir "final.contigs.fa") ;;
   report_info <- velveth_create_report w params report output_data_ref ;;
   velveth_output report_info).
Proof.
  unfold velveth_after_wait, velveth_save_and_report.
  match goal with
  | |- context [bind (velveth_save _ _ _) ?k] => generalize k
  end.
  intros k.
  destruct (velveth_save w params (path_join output_dir "final.contigs.fa"))
    as [t [ref | e]]; [ | reflexivity ].
  cbn. destruct (k ref). reflexivity.
Qed.

Lemma quiet_bind {A B} (m : M A) (f : A -> M B) :
  trace m = [] -> (forall a, trace (f a) = []) -> trace (bind m f) = [].
Proof.
  intros Hm Hf. rewrite trace_bind, Hm. destruct (result m); [ apply Hf | reflexivity ].
Qed.

Lemma getitem_quiet (d : dict) (k : string) : trace (getitem d k) = [].
Proof. unfold getitem. destruct (dict_get k d); reflexivity. Qed.

Lemma str_add_quiet (a : string) (b : value) : trace (str_add a b) = [].
Proof. destruct b; reflexivity. Qed.

Lemma py_float_quiet (n : Z) : trace (py_float n) = [].
Proof. unfold py_float. destruct (float_of_int n); reflexivity. Qed.

Lemma truediv_quiet (a : Z) (b : spec_float) : trace (truediv a b) = [].
Proof.
  unfold truediv. apply quiet_bind; [ apply py_float_quiet | ].
  intros fa. destruct (float_is_zero b); reflexivity.
Qed.

Lemma velveth_report_text_quiet (w : World) (params : dict) (lengths : list Z) :
  trace (velveth_report_text w params lengths) = [].
Proof.
  unfold velveth_report_text. cbv zeta.
  repeat first
    [ reflexivity
    | apply getitem_quiet | apply str_add_quiet | apply py_float_quiet
    | apply truediv_quiet
    | apply quiet_bind; [ | intros ? ] ].
Qed.

Lemma velveth_report_trace (w : World) (params : dict) (path : string) :
  trace (velveth_report w params path) = [EvParseFasta path].
Proof.
  unfold velveth_report. rewrite trace_bind.
  destruct (seqio_parse w path) as [records | e] eqn:Hparse.
  - rewrite (contig_lengths_parsed _ _ _ Hparse). cbn [result trace fst snd].
    now rewrite velveth_report_text_quiet.
  - unfold contig_lengths. rewrite Hparse. reflexivity.
Qed.

(** [process_params] does not ask for [output_contigset_name], which
    STEP 4 reads: without it the call raises [KeyError] after the return
    code is printed, before the storage client is called. *)
Theorem missing_contigset_name_is_KeyError
    (w : World) (params : dict) (output_dir : string) (workspace_name : value) :
  dict_get "workspace_name" params = Some workspace_name ->
  dict_get "output_contigset_name" params = None ->
  velveth_after_wait w params output_dir 0 =
  ([EvPrint "Return code: 0"], Raise (KeyError (VStr "output_contigset_name"))).
Proof.
  intros Hws Hname.
  rewrite velveth_after_wait_zero, velveth_save_outcome, Hws, Hname. reflexivity.
Qed.

Lemma missing_contigset_name_is_KeyError_witness :
  dict_get "workspace_name" sample_params = Some (VStr "my_ws")
  /\ dict_get "output_contigset_name" sample_params = None
  /\ velveth_after_wait sample_world sample_params "/kb/module/work/tmp/out" 0 =
     ([EvPrint "Return code: 0"], Raise (KeyError (VStr "output_contigset_name"))).
Proof.
  split; [ reflexivity | ].
  split; [ reflexivity | ].
  apply (missing_contigset_name_is_KeyError sample_world sample_params
           "/kb/module/work/tmp/out" (VStr "my_ws")); reflexivity.
Defined.

(** An error of the storage service is passed on as it is: the service
    is called once, with the path of [final.contigs.fa] in the output
    directory, and nothing is read or reported afterwards. *)
Theorem storage_error_propagates
    (w : World) (params : dict) (output_dir : string)
    (workspace_name assembly_name : value) (e : exn) :
  dict_get "workspace_name" params = Some workspace_name ->
  dict_get "output_contigset_name" params = Some assembly_name ->
  save_assembly_from_fasta w
    [ ("file", VDict [("path", VStr (path_join output_dir "final.contigs.fa"))]);
      ("workspace_name", workspace_name);
      ("assembly_name", assembly_name) ] = Raise e ->
  velveth_after_wait w params output_dir 0 =
  ([ EvPrint "Return code: 0";
     EvSaveAssembly
       [ ("file", VDict [("path", VStr (path_join output_dir "final.contigs.fa"))]);
         ("workspace_name", workspace_name);
         ("assembly_name", assembly_name) ] ],
   Raise e).
Proof.
  intros Hws Hname Hsave.
  rewrite velveth_after_wait_zero, velveth_save_outcome, Hws, Hname.
  cbv zeta. rewrite Hsave. reflexivity.
Qed.

Lemma storage_error_propagates_witness :
  dict_get "workspace_name" named_params = Some (VStr "my_ws")
  /\ dict_get "output_contigset_name" named_params = Some (VStr "velvet.contigs")
  /\ save_assembly_from_fasta storage_down_world
       [ ("file",
           VDict [("path", VStr (path_join "/kb/module/work/tmp/out" "final.contigs.fa"))]);
         ("workspace_name", VStr "my_ws");
         ("assembly_name", VStr "velvet.contigs") ] =
     Raise (ServerError "503 Service Unavailable")
  /\ velveth_after_wait storage_down_world named_params "/kb/module/work/tmp/out" 0 =
     ([ EvPrint "Return code: 0";
        EvSaveAssembly
          [ ("file",
              VDict [("path",
                      VStr (path_join "/kb/module/work/tmp/out" "final.contigs.fa"))]);
            ("workspace_name", VStr "my_ws");
            ("assembly_name", VStr "velvet.contigs") ] ],
      Raise (ServerError "503 Service Unavailable")).
Proof.
  split; [ reflexivity | ].
  split; [ reflexivity | ].
  split; [ reflexivity | ].
  apply (storage_error_propagates storage_down_world named_params
           "/kb/module/work/tmp/out" (VStr "my_ws") (VStr "velvet.contigs")
           (ServerError "503 Service Unavailable")); reflexivity.
Defined.

Ltac after_wait_case :=
  rewrite ?bind_raise; cbn [bind app trace result fst snd];
  repeat split; eauto; repeat constructor.

(** Whatever the return code, the request and the answers of the
    services, the code after [p.wait()] does not return: it raises.  It
    starts no process, calls the storage client at most once and never
    calls the report client. *)
Theorem velveth_after_wait_never_returns
    (w : World) (params : dict) (output_dir : string) (retcode : Z) :
  (exists e, result (velveth_after_wait w params output_dir retcode) = Raise e)
  /\ spawn_count (trace (velveth_after_wait w params output_dir retcode)) = 0%nat
  /\ (storage_count (trace (velveth_after_wait w params output_dir retcode)) <= 1)%nat
  /\ Forall (fun ev => is_report_call ev = false)
       (trace (velveth_after_wait w params output_dir retcode)).
Proof.
  destruct (Z.eq_dec retcode 0) as [-> | Hnz].
  - rewrite velveth_after_wait_zero, velveth_save_outcome.
    destruct (dict_get "workspace_name" params) as [ws | ];
      [ | after_wait_case ].
    destruct (dict_get "output_contigset_name" params) as [name | ];
      [ | after_wait_case ].
    cbv zeta. cbn [trace result fst snd].
    destruct (save_assembly_from_fasta w _) as [ref | e];
      [ | after_wait_case ].
    pose proof (velveth_report_trace w params
                  (path_join output_dir "final.contigs.fa")) as Ht.
    destruct (velveth_report w params (path_join output_dir "final.contigs.fa"))
      as [t [report | e]]; cbn [trace fst] in Ht; subst t.
    + cbn [bind]. rewrite velveth_create_report_raises. after_wait_case.
    + after_wait_case.
  - unfold velveth_after_wait. rewrite (velveth_check_nonzero _ Hnz).
    after_wait_case.
Qed.

Lemma velveth_report_text_returns
    (w : World) (params : dict) (ws name : string) (lengths : list Z) :
  dict_get "workspace_name" params = Some (VStr ws) ->
  dict_get "output_contigset_name" params = Some (VStr name) ->
  0 < len lengths < 2 ^ 53 ->
  0 <= sum lengths < 2 ^ 53 ->
  exists text, result (velveth_report_text w params lengths) = Return text.
Proof.
  intros Hws Hname Hlen Hsum.
  unfold velveth_report_text, getitem, truediv. rewrite Hws, Hname.
  rewrite (py_float_small (len lengths)) by lia.
  rewrite (py_float_small (sum lengths)) by lia.
  cbn [bind ret raise str_add app result snd].
  rewrite (float_of_int_nonzero (len lengths)) by lia.
  eexists. reflexivity.
Qed.

(** On the way that goes well (exit code 0, assembly saved, a contig
    file with records) the call still fails: the assembly is saved in the
    workspace, the file is read, ['Saving report'] is printed, and then
    the unbound names of lines 197-204 end the call with [NameError]
    before the report client is called. *)
Theorem assembly_saved_without_report
    (w : World) (params : dict) (output_dir ws name : string) (ref : value)
    (records : list string) :
  dict_get "workspace_name" params = Some (VStr ws) ->
  dict_get "output_contigset_name" params = Some (VStr name) ->
  save_assembly_from_fasta w
    [ ("file", VDict [("path", VStr (path_join output_dir "final.contigs.fa"))]);
      ("workspace_name", VStr ws);
      ("assembly_name", VStr name) ] = Return ref ->
  seqio_parse w (path_join output_dir "final.contigs.fa") = Return records ->
  records <> [] ->
  len records < 2 ^ 53 ->
  total_length records < 2 ^ 53 ->
  velveth_after_wait w params output_dir 0 =
  ([ EvPrint "Return code: 0";
     EvSaveAssembly
       [ ("file", VDict [("path", VStr (path_join output_dir "final.contigs.fa"))]);
         ("workspace_name", VStr ws);
         ("assembly_name", VStr name) ];
     EvParseFasta (path_join output_dir "final.contigs.fa");
     EvPrint "Saving report" ],
   Raise (NameError "_RepError")).
Proof.
  intros Hws Hname Hsave Hparse Hne Hlen Htot.
  pose proof (len_positive records Hne) as Hpos.
  pose proof (total_length_nonneg records) as Hnn.
  rewrite velveth_after_wait_zero, velveth_save_outcome, Hws, Hname.
  cbv zeta. rewrite Hsave. cbn [trace result fst snd].
  pose proof (velveth_report_trace w params
                (path_join output_dir "final.contigs.fa")) as Ht.
  assert (exists text,
            result (velveth_report w params (path_join output_dir "final.contigs.fa"))
            = Return text) as [text Hres].
  { unfold velveth_report.
    rewrite result_bind, (contig_lengths_parsed _ _ _ Hparse). cbn [result snd].
    apply (velveth_report_text_returns w params ws name); auto.
    - rewrite len_lengths. lia.
    - rewrite sum_lengths. lia. }
  destruct (velveth_report w params (path_join output_dir "final.contigs.fa"))
    as [t r]. cbn [trace result fst snd] in Ht, Hres. subst t r.
  cbn [bind]. rewrite velveth_create_report_raises. reflexivity.
Qed.

Lemma assembly_saved_without_report_witness :
  dict_get "workspace_name" named_params = Some (VStr "my_ws")
  /\ dict_get "output_contigset_name" named_params = Some (VStr "velvet.contigs")
  /\ save_assembly_from_fasta sample_world
       [ ("file",
           VDict [("path", VStr (path_join "/kb/module/work/tmp/out" "final.contigs.fa"))]);
         ("workspace_name", VStr "my_ws");
         ("assembly_name", VStr "velvet.contigs") ] = Return (VStr "7/3/1")
  /\ seqio_parse sample_world (path_join "/kb/module/work/tmp/out" "final.contigs.fa") =
     Return ["ACGT"; "ACGTAC"]
  /\ ["ACGT"; "ACGTAC"] <> []
  /\ len ["ACGT"; "ACGTAC"] < 2 ^ 53
  /\ total_length ["ACGT"; "ACGTAC"] < 2 ^ 53
  /\ velveth_after_wait sample_world named_params "/kb/module/work/tmp/out" 0 =
     ([ EvPrint "Return code: 0";
        EvSaveAssembly
          [ ("file",
              VDict [("path",
                      VStr (path_join "/kb/module/work/tmp/out" "final.contigs.fa"))]);
            ("workspace_name", VStr "my_ws");
            ("assembly_name", VStr "velvet.contigs") ];
        EvParseFasta (path_join "/kb/module/work/tmp/out" "final.contigs.fa");
        EvPrint "Saving report" ],
      Raise (NameError "_RepError")).
Proof.
  split; [ reflexivity | ].
  split; [ reflexivity | ].
  split; [ reflexivity | ].
  split; [ reflexivity | ].
  split; [ discriminate | ].
  split; [ reflexivity | ].
  split; [ reflexivity | ].
  apply (assembly_saved_without_report sample_world named_params
           "/kb/module/work/tmp/out" "my_ws" "velvet.contigs" (VStr "7/3/1")
           ["ACGT"; "ACGTAC"]);
    first [ reflexivity | discriminate ].
Defined.

(** [process_params] checks that [workspace_name] is there, not that it
    is a string: a value of another type is handed to the storage client
    as it is, and only the text of the report, which concatenates it,
    raises [TypeError], after the assembly is saved and the file read. *)
Theorem workspace_name_type_found_late
    (w : World) (params : dict) (output_dir : string)
    (workspace_name assembly_name ref : value) (records : list string) :
  dict_get "workspace_name" params = Some workspace_name ->
  isinstance_str workspace_name = false ->
  dict_get "output_contigset_name" params = Some assembly_name ->
  save_assembly_from_fasta w
    [ ("file", VDict [("path", VStr (path_join output_dir "final.contigs.fa"))]);
      ("workspace_name", workspace_name);
      ("assembly_name", assembly_name) ] = Return ref ->
  seqio_parse w (path_join output_dir "final.contigs.fa") = Return records ->
  velveth_after_wait w params output_dir 0 =
  ([ EvPrint "Return code: 0";
     EvSaveAssembly
       [ ("file", VDict [("path", VStr (path_join output_dir "final.contigs.fa"))]);
         ("workspace_name", workspace_name);
         ("assembly_name", assembly_name) ];
     EvParseFasta (path_join output_dir "final.contigs.fa") ],
   Raise (TypeError "can only concatenate str to str")).
Proof.
  intros Hws Hstr Hname Hsave Hparse.
  rewrite velveth_after_wait_zero, velveth_save_outcome, Hws, Hname.
  cbv zeta. rewrite Hsave. cbn [trace result fst snd].
  unfold velveth_report. rewrite (contig_lengths_parsed _ _ _ Hparse).
  unfold velveth_report_text, getitem. rewrite Hws.
  destruct workspace_name; try discriminate Hstr; reflexivity.
Qed.

Lemma workspace_name_type_found_late_witness :
  dict_get "workspace_name" numeric_ws_params = Some (VInt 7)
  /\ isinstance_str (VInt 7) = false
  /\ dict_get "output_contigset_name" numeric_ws_params = Some (VStr "velvet.contigs")
  /\ save_assembly_from_fasta sample_world
       [ ("file",
           VDict [("path", VStr (path_join "/kb/module/work/tmp/out" "final.contigs.fa"))]);
         ("workspace_name", VInt 7);
         ("assembly_name", VStr "velvet.contigs") ] = Return (VStr "7/3/1")
  /\ seqio_parse sample_world (path_join "/kb/module/work/tmp/out" "final.contigs.fa") =
     Return ["ACGT"; "ACGTAC"]
  /\ velveth_after_wait sample_world numeric_ws_params "/kb/module/work/tmp/out" 0 =
     ([ EvPrint "Return code: 0";
        EvSaveAssembly
          [ ("file",
              VDict [("path",
                      VStr (path_join "/kb/module/work/tmp/out" "final.contigs.fa"))]);
            ("workspace_name", VInt 7);
            ("assembly_name", VStr "velvet.contigs") ];
        EvParseFasta (path_join "/kb/module/work/tmp/out" "final.contigs.fa") ],
      Raise (TypeError "can only concatenate str to str")).
Proof.
  split; [ reflexivity | ].
  split; [ reflexivity | ].
  split; [ reflexivity | ].
  split; [ reflexivity | ].
  split; [ reflexivity | ].
  apply (workspace_name_type_found_late sample_world numeric_ws_params
           "/kb/module/work/tmp/out" (VInt 7) (VStr "velvet.contigs") (VStr "7/3/1")
           ["ACGT"; "ACGTAC"]); reflexivity.
Defined.

(** ** The files of a reads channel *)

Lemma velveth_channel_files_appends_witness :
  dict_get "read_file_info"
    [ ("read_type", VStr "reference"); ("file_layout", VStr "separate");
      ("read_file_info",
        VDict [ ("read_file", VStr "reads.fa");
                ("reference_file", VStr "test_reference.fa");
                ("left_file", VStr "left.fa");
                ("right_file", VStr "right.fa") ]) ] =
    Some (VDict [ ("read_file", VStr "reads.fa");
                  ("reference_file", VStr "test_reference.fa");
                  ("left_file", VStr "left.fa");
                  ("right_file", VStr "right.fa") ])
  /\ velveth_channel_files [VStr "velveth"]
       (VDict [ ("read_type", VStr "reference"); ("file_layout", VStr "separate");
                ("read_file_info",
                  VDict [ ("read_file", VStr "reads.fa");
                          ("reference_file", VStr "test_reference.fa");
                          ("left_file", VStr "left.fa");
                          ("right_file", VStr "right.fa") ]) ])
       (VStr "reference") =
     ([], Return [ VStr "velveth"; VStr "test_reference.fa"; VStr "-separate";
                   VStr "left.fa"; VStr "right.fa" ]).
Proof.
  split; [ reflexivity | ].
  apply (velveth_channel_files_appends [VStr "velveth"]
           [ ("read_type", VStr "reference"); ("file_layout", VStr "separate");
             ("read_file_info",
               VDict [ ("read_file", VStr "reads.fa");
                       ("reference_file", VStr "test_reference.fa");
                       ("left_file", VStr "left.fa");
                       ("right_file", VStr "right.fa") ]) ]
           [ ("read_file", VStr "reads.fa");
             ("reference_file", VStr "test_reference.fa");
             ("left_file", VStr "left.fa");
             ("right_file", VStr "right.fa") ]
           (VStr "reference") (VStr "separate")
           (VStr "test_reference.fa") (VStr "left.fa") (VStr "right.fa")
           (VStr "reads.fa")); reflexivity.
Defined.

(** A channel without [file_layout] stops the loop body with [KeyError],
    also when its read type is ['reference'] and the reference file is
    already appended: the layout is read for every channel. *)
Theorem velveth_channel_files_needs_layout
    (velveth_cmd : list value) (ch : dict) (read_type : value) :
  dict_get "file_layout" ch = None ->
  eq_str read_type "reference" = false ->
  velveth_channel_files velveth_cmd (VDict ch) read_type =
  ([], Raise (KeyError (VStr "file_layout"))).
Proof.
  intros Hlayout Href.
  unfold velveth_channel_files, subscript, getitem. rewrite Href, Hlayout. reflexivity.
Qed.

Lemma velveth_channel_files_needs_layout_witness :
  dict_get "file_layout" [("read_file_info", VDict [("read_file", VStr "reads.fa")])] = None
  /\ eq_str (VStr "short") "reference" = false
  /\ velveth_channel_files [VStr "velveth"]
       (VDict [("read_file_info", VDict [("read_file", VStr "reads.fa")])])
       (VStr "short") =
     ([], Raise (KeyError (VStr "file_layout"))).
Proof.
  split; [ reflexivity | ].
  split; [ reflexivity | ].
  apply (velveth_channel_files_needs_layout [VStr "velveth"]
           [("read_file_info", VDict [("read_file", VStr "reads.fa")])] (VStr "short"));
    reflexivity.
Defined.

(** ** The constructor *)

(** Construction succeeds exactly when the environment has
    [SDK_CALLBACK_URL], the configuration is there and has
    [workspace-url] and [scratch], and the scratch directory exists or
    can be made; the instance then holds the callback URL, the workspace
    URL and the absolute path of the scratch directory. *)
Theorem init_succeeds_iff
    (h : Host) (config : option (list (string * string))) (self : Velvet) :
  snd (__init__ h config) = Return self <->
  exists url items workspace_url dir,
    assoc_get "SDK_CALLBACK_URL" (environ h) = Some url
    /\ config = Some items
    /\ assoc_get "workspace-url" items = Some workspace_url
    /\ assoc_get "scratch" items = Some dir
    /\ (path_exists h (abspath h dir) = true
        \/ makedirs h (abspath h dir) = Return tt)
    /\ self = {| cfg := map (fun kv => (fst kv, VStr (snd kv))) items;
                 callbackURL := url;
                 workspaceURL := workspace_url;
                 scratch := abspath h dir |}.
Proof.
  unfold __init__. split.
  - destruct (assoc_get "SDK_CALLBACK_URL" (environ h)) as [url | ] eqn:Henv;
      [ | discriminate ].
    destruct config as [items | ]; [ | discriminate ].
    destruct (assoc_get "workspace-url" items) as [workspace_url | ] eqn:Hws;
      [ | discriminate ].
    destruct (assoc_get "scratch" items) as [dir | ] eqn:Hdir; [ | discriminate ].
    cbn [scratch].
    destruct (path_exists h (abspath h dir)) eqn:Hex.
    + intros Hres. injection Hres as <-.
      exists url, items, workspace_url, dir.
      do 4 (split; [ auto | ]). split; [ left; exact Hex | reflexivity ].
    + destruct (makedirs h (abspath h dir)) as [[] | e] eqn:Hmk; [ | discriminate ].
      intros Hres. injection Hres as <-.
      exists url, items, workspace_url, dir.
      do 4 (split; [ auto | ]). split; [ right; exact Hmk | reflexivity ].
  - intros (url & items & workspace_url & dir & Henv & -> & Hws & Hdir & Hfs & ->).
    rewrite Henv, Hws, Hdir. cbn [scratch].
    destruct (path_exists h (abspath h dir)); [ reflexivity | ].
    destruct Hfs as [Hfs | Hfs]; [ discriminate | ]. now rewrite Hfs.
Qed.

(** The constructor calls [os.makedirs] only when it has got as far as
    the scratch path and that path does not exist: the argument is the
    absolute path of [config['scratch']], and a construction that calls
    [os.makedirs] calls it once.  (What [os.makedirs] then creates, the
    directory and its missing parents, is the host's matter.) *)
Theorem init_makedirs_only_when_absent
    (h : Host) (config : option (list (string * string))) (path : string) :
  In (InitMakedirs path) (fst (__init__ h config)) ->
  path_exists h path = false
  /\ (exists items dir,
        config = Some items /\ assoc_get "scratch" items = Some dir
        /\ path = abspath h dir)
  /\ makedirs_count (fst (__init__ h config)) = 1%nat.
Proof.
  unfold __init__.
  destruct (assoc_get "SDK_CALLBACK_URL" (environ h)) as [url | ];
    [ | intros [] ].
  destruct config as [items | ]; [ | intros [H | []]; discriminate H ].
  destruct (assoc_get "workspace-url" items) as [workspace_url | ];
    [ | intros [H | []]; discriminate H ].
  destruct (assoc_get "scratch" items) as [dir | ] eqn:Hdir;
    [ | intros [H | []]; discriminate H ].
  cbn [scratch].
  destruct (path_exists h (abspath h dir)) eqn:Hex;
    [ intros [H | []]; discriminate H | ].
  destruct (makedirs h (abspath h dir));
    (intros [H | [H | []]]; [ discriminate H | injection H as <- ];
     split; [ assumption | split; [ exists items, dir; auto | reflexivity ] ]).
Qed.

Lemma init_makedirs_only_when_absent_witness :
  In (InitMakedirs "/kb/module/work/tmp")
     (fst (__init__ sample_host (Some sample_config)))
  /\ path_exists sample_host "/kb/module/work/tmp" = false
  /\ (exists items dir,
        Some sample_config = Some items /\ assoc_get "scratch" items = Some dir
        /\ "/kb/module/work/tmp" = abspath sample_host dir)
  /\ makedirs_count (fst (__init__ sample_host (Some sample_config))) = 1%nat.
Proof.
  split; [ right; left; reflexivity | ].
  apply (init_makedirs_only_when_absent sample_host (Some sample_config)
           "/kb/module/work/tmp").
  right; left; reflexivity.
Defined.

(** Without [SDK_CALLBACK_URL] in the environment the constructor raises
    [KeyError] at once, whatever the configuration: nothing is logged and
    no directory is made. *)
Theorem init_needs_callback_url
    (h : Host) (config : option (list (string * string))) :
  assoc_get "SDK_CALLBACK_URL" (environ h) = None ->
  __init__ h config = ([], Raise (KeyError (VStr "SDK_CALLBACK_URL"))).
Proof. intros Henv. unfold __init__. now rewrite Henv. Qed.

Lemma init_needs_callback_url_witness :
  assoc_get "SDK_CALLBACK_URL"
    (environ {| environ := [("HOME", "/root")];
                abspath := abspath sample_host;
                path_exists := path_exists sample_host;
                makedirs := makedirs sample_host |}) = None
  /\ __init__ {| environ := [("HOME", "/root")];
                 abspath := abspath sample_host;
                 path_exists := path_exists sample_host;
                 makedirs := makedirs sample_host |} (Some sample_config) =
     ([], Raise (KeyError (VStr "SDK_CALLBACK_URL"))).
Proof.
  split; [ reflexivity | ].
  apply (init_needs_callback_url
           {| environ := [("HOME", "/root")];
              abspath := abspath sample_host;
              path_exists := path_exists sample_host;
              makedirs := makedirs sample_host |} (Some sample_config)).
  reflexivity.
Defined.

(** ** [status] *)

(** [status] needs neither a token nor anything of the instance: for
    every instance and context it returns, without output, one [dict]
    with state ['OK'], an empty message and the version, URL and commit
    of the class. *)
Theorem status_is_constant (self : Velvet) (ctx : dict) :
  status self ctx =
  ([], Return [VDict [ ("state", VStr "OK");
                       ("message", VStr EmptyString);
                       ("version", VStr "0.0.1");
                       ("git_url", VStr "https://github.com/kbaseapps/Velvet.git");
                       ("git_commit_hash",
                         VStr "f9dd477aaf7d370fb238d63483ed4dd3e6856f64") ]]).
Proof. reflexivity. Qed.
